(** * OpenISave: the personal finance tracker, embedded and verified

    The repository holds two Python programs over SQLite:
    [finance_app.py] (Flask; accounts, transactions, exchange rates,
    dashboard balances, monthly reports) and [server.py] (a smaller
    [http.server] variant without accounts and without input checks).

    Modelling choices, all documented where they are made:
    - a table is the list of its rows in rowid order (a row is appended
      at the end);
    - SQLite [REAL] and Python [float] values are exact rationals [Q];
      binary rounding, infinities and NaN are outside the model;
    - text is [string] (bytes); case mapping and whitespace are ASCII;
    - [date.today()] is an argument of the operations that read it. *)

From Stdlib Require Import List String Ascii Bool Arith ZArith QArith Qround.
From Stdlib Require Import Lia Permutation Sorted DecimalString OrderedTypeEx.
From Stdlib Require Import DecimalZ.
Import ListNotations.

Local Open Scope nat_scope.
Local Open Scope string_scope.

(** ** Python built-ins used by the source *)
Module Py.

Definition chars (s : string) : list ascii := list_ascii_of_string s.
Definition str (l : list ascii) : string := string_of_list_ascii l.

Definition code (c : ascii) : nat := nat_of_ascii c.

Definition is_digit (c : ascii) : bool :=
  (48 <=? code c)%nat && (code c <=? 57)%nat.

(** [str.isspace] on ASCII: tab, LF, VT, FF, CR, FS, GS, RS, US, space. *)
Definition is_space (c : ascii) : bool :=
  ((9 <=? code c)%nat && (code c <=? 13)%nat)
  || ((28 <=? code c)%nat && (code c <=? 32)%nat).

Definition lower_char (c : ascii) : ascii :=
  if (65 <=? code c)%nat && (code c <=? 90)%nat
  then ascii_of_nat (code c + 32) else c.

Definition upper_char (c : ascii) : ascii :=
  if (97 <=? code c)%nat && (code c <=? 122)%nat
  then ascii_of_nat (code c - 32) else c.

(** [s.lower()] and [s.upper()] *)
Definition lower (s : string) : string := str (map lower_char (chars s)).
Definition upper (s : string) : string := str (map upper_char (chars s)).

Fixpoint lstrip (l : list ascii) : list ascii :=
  match l with
  | c :: r => if is_space c then lstrip r else l
  | [] => []
  end.

(** [s.strip()] *)
Definition strip (s : string) : string :=
  str (rev (lstrip (rev (lstrip (chars s))))).

(** [x in xs] for a list (or set) of strings *)
Definition str_in (x : string) (xs : list string) : bool :=
  existsb (String.eqb x) xs.

(** [str(n)] for an [int] *)
Definition str_of_int (z : Z) : string :=
  NilZero.string_of_int (Z.to_int z).

(** [f"{n:02d}"]: at least two characters, padded with a zero on the
    left (the sign counts for the width). *)
Definition fmt_02d (z : Z) : string :=
  let s := str_of_int z in
  if (String.length s <? 2)%nat
  then (if (z <? 0)%Z then s else "0" ++ s) else s.

(** [f"{n:04d}"] for a non-negative [n] *)
Definition fmt_04d (n : Z) : string :=
  let s := str_of_int n in
  str (repeat "0"%char (4 - String.length s)) ++ s.

Definition digit_val (c : ascii) : Z := Z.of_nat (code c - 48).

(** [int(s)] for a run of ASCII digits *)
Definition int_of_digits (l : list ascii) : Z :=
  fold_left (fun acc c => 10 * acc + digit_val c)%Z l 0%Z.

Fixpoint span (p : ascii -> bool) (l : list ascii)
  : list ascii * list ascii :=
  match l with
  | c :: r => if p c then let (a, b) := span p r in (c :: a, b)
              else ([], l)
  | [] => ([], [])
  end.

(** JSON scalars, as [json.loads] hands them to the handlers. *)
Inductive json : Type :=
| JNull
| JBool (b : bool)
| JNum (q : Q)
| JStr (s : string).

(** Truth value of a decoded JSON scalar ([not x], [x or d]). *)
Definition truthy (j : json) : bool :=
  match j with
  | JNull => false
  | JBool b => b
  | JNum q => negb (Qeq_bool q 0%Q)
  | JStr s => negb (String.eqb s "")
  end.

(** The exponent part of a float literal: empty, or [e] / [E], an
    optional sign and at least one digit, up to the end of the text. *)
Definition exponent (l : list ascii) : option Z :=
  match l with
  | [] => Some 0%Z
  | c :: r =>
      if Ascii.eqb c "e" || Ascii.eqb c "E" then
        let '(neg, ds) :=
          match r with
          | s :: r' =>
              if Ascii.eqb s "-" then (true, r')
              else if Ascii.eqb s "+" then (false, r') else (false, r)
          | [] => (false, r)
          end in
        match ds with
        | [] => None
        | _ => if forallb is_digit ds
               then Some (let v := int_of_digits ds in
                          if neg then (- v)%Z else v)
               else None
        end
      else None
  end.

(** [float(s)] on a string: surrounding whitespace, an optional sign,
    digits with an optional fraction (at least one digit in all) and an
    optional exponent.  The value is the exact decimal.  The literals
    [inf], [nan] and digit-group underscores have no counterpart in
    [Q] and are not recognised. *)
Definition float_of_str (s : string) : option Q :=
  let l := rev (lstrip (rev (lstrip (chars s)))) in
  let '(neg, l0) :=
    match l with
    | c :: r => if Ascii.eqb c "-" then (true, r)
                else if Ascii.eqb c "+" then (false, r) else (false, l)
    | [] => (false, l)
    end in
  let '(ip, l1) := span is_digit l0 in
  let '(fp, l2) :=
    match l1 with
    | c :: r => if Ascii.eqb c "." then span is_digit r else ([], l1)
    | [] => ([], l1)
    end in
  match (ip ++ fp)%list with
  | [] => None
  | ds =>
      match exponent l2 with
      | None => None
      | Some e =>
          let m := inject_Z (int_of_digits ds) in
          let v := (m * Qpower 10 (e - Z.of_nat (List.length fp)))%Q in
          Some (if neg then (- v)%Q else v)
      end
  end.

(** [float(x)]: [None] stands for the [TypeError] / [ValueError]. *)
Definition float (j : json) : option Q :=
  match j with
  | JNull => None
  | JBool b => Some (if b then 1%Q else 0%Q)
  | JNum q => Some q
  | JStr s => float_of_str s
  end.

(** Round half to even, to an integer. *)
Definition round_half_even (q : Q) : Z :=
  let f := Qfloor q in
  let d := (q - inject_Z f)%Q in
  match (d ?= 1 # 2)%Q with
  | Lt => f
  | Gt => (f + 1)%Z
  | Eq => if Z.even f then f else (f + 1)%Z
  end.

(** [round(x, 2)] *)
Definition round2 (q : Q) : Q :=
  inject_Z (round_half_even (q * 100)%Q) / 100.

(** *** [datetime.strptime(s, "%Y-%m-%d").date()] and [isoformat] *)
Record date : Type := mkdate { year : Z; month : Z; day : Z }.

Definition is_leap (y : Z) : bool :=
  ((y mod 4 =? 0) && negb (y mod 100 =? 0) || (y mod 400 =? 0))%Z.

Definition days_in_month (y m : Z) : Z :=
  match m with
  | 2 => if is_leap y then 29 else 28
  | 4 | 6 | 9 | 11 => 30
  | _ => 31
  end%Z.

(** The month directive: [1[0-2]|0[1-9]|[1-9]]. *)
Definition month_field (l : list ascii) : option Z :=
  match l with
  | [a] => if is_digit a && negb (Ascii.eqb a "0")
           then Some (digit_val a) else None
  | [a; b] =>
      if is_digit a && is_digit b then
        let v := int_of_digits [a; b] in
        if (1 <=? v)%Z && (v <=? 12)%Z then Some v else None
      else None
  | _ => None
  end.

(** The day directive: [3[01]|[12]\d|0[1-9]|[1-9]| [1-9]]. *)
Definition day_field (l : list ascii) : option Z :=
  match l with
  | [a] => if is_digit a && negb (Ascii.eqb a "0")
           then Some (digit_val a) else None
  | [a; b] =>
      if Ascii.eqb a " " then
        (if is_digit b && negb (Ascii.eqb b "0")
         then Some (digit_val b) else None)
      else if is_digit a && is_digit b then
        let v := int_of_digits [a; b] in
        if (1 <=? v)%Z && (v <=? 31)%Z then Some v else None
      else None
  | _ => None
  end.

Definition not_dash (c : ascii) : bool := negb (Ascii.eqb c "-").

(** Four digits, a dash, the month, a dash, the day, nothing else; then
    the calendar check of [datetime.date] (years start at 1). *)
Definition strptime_ymd (s : string) : option date :=
  match chars s with
  | y1 :: y2 :: y3 :: y4 :: dash :: rest =>
      if forallb is_digit [y1; y2; y3; y4] && Ascii.eqb dash "-" then
        let '(ms, rest1) := span not_dash rest in
        match rest1 with
        | _ :: ds =>
            match month_field ms, day_field ds with
            | Some m, Some d =>
                let y := int_of_digits [y1; y2; y3; y4] in
                if (1 <=? y)%Z && (d <=? days_in_month y m)%Z
                then Some (mkdate y m d) else None
            | _, _ => None
            end
        | [] => None
        end
      else None
  | _ => None
  end.

Definition isoformat (d : date) : string :=
  fmt_04d (year d) ++ "-" ++ fmt_02d (month d) ++ "-" ++ fmt_02d (day d).

End Py.

(** ** The SQL clauses the queries use *)
Module Sql.

Section OrderBy.
Context {A : Type} (cmp : A -> A -> comparison).

(** [x] was scanned before every row of [l]; it goes after the rows
    that come strictly first and before its ties, as SQLite's sorter
    does with the sequence number it appends to each sort key. *)
Fixpoint insert (x : A) (l : list A) : list A :=
  match l with
  | y :: r =>
      match cmp y x with
      | Lt => y :: insert x r
      | _ => x :: l
      end
  | [] => [x]
  end.

(** [ORDER BY]: rows for which [cmp] answers [Lt] come first; equal
    rows keep the scan (rowid) order. *)
Definition order_by (l : list A) : list A := fold_right insert [] l.
End OrderBy.

(** [LIMIT n]; a negative [n] means no limit. *)
Definition limit {A : Type} (n : Z) (l : list A) : list A :=
  if (n <? 0)%Z then l else firstn (Z.to_nat n) l.

(** A text holds a date for [strftime] when it is a calendar date
    written [YYYY-MM-DD].  This is exact on what [isoformat] produces;
    the other spellings SQLite accepts (times, Julian day numbers) are
    treated as no date. *)
Definition date_of_text (s : string) : option Py.date :=
  match Py.strptime_ymd s with
  | Some d => if String.eqb (Py.isoformat d) s then Some d else None
  | None => None
  end.

(** [strftime('%Y', s)] and [strftime('%m', s)]; [None] is NULL. *)
Definition strftime_Y (s : string) : option string :=
  option_map (fun d => Py.fmt_04d (Py.year d)) (date_of_text s).
Definition strftime_m (s : string) : option string :=
  option_map (fun d => Py.fmt_02d (Py.month d)) (date_of_text s).

(** [e = ?] in a WHERE clause: NULL never matches. *)
Definition text_eq (e : option string) (p : string) : bool :=
  match e with
  | Some s => String.eqb s p
  | None => false
  end.

(** [SELECT key, SUM(val) ... GROUP BY key]: one row per key, in key
    order (SQLite groups through a sort on the key). *)
Section GroupBy.
Context {A K : Type} (cmp : K -> K -> comparison)
        (key : A -> K) (val : A -> Q).

Definition key_eqb (a b : K) : bool :=
  match cmp a b with Eq => true | _ => false end.

Fixpoint add_to_group (g : list (K * Q)) (k : K) (v : Q)
  : list (K * Q) :=
  match g with
  | (k', s) :: r =>
      if key_eqb k' k then (k', (s + v)%Q) :: r
      else (k', s) :: add_to_group r k v
  | [] => [(k, v)]
  end.

Definition group_by_sum (rows : list A) : list (K * Q) :=
  order_by (fun a b => cmp (fst a) (fst b))
    (fold_left (fun g r => add_to_group g (key r) (val r)) rows []).
End GroupBy.

(** The rowid given to an inserted row: one more than the largest. *)
Definition next_rowid (ids : list Z) : Z :=
  (1 + fold_right Z.max 0 ids)%Z.

End Sql.

(** ** finance_app.py *)
Module FinanceApp.

Definition CURRENCIES : list string :=
  ["CNY"; "USD"; "EUR"; "GBP"; "JPY"; "CAD"; "AUD"].
Definition EXPENSE_CATS : list string :=
  ["Food"; "Transport"; "Rent"; "Utilities"; "Entertainment";
   "Groceries"; "Health"; "Clothing"; "Education"; "Other"].
Definition INCOME_CATS : list string :=
  ["Salary"; "Bonus"; "Part-time"; "Interest"; "Gift"; "Investment";
   "Freelance"; "Other"].
Definition ALLOWED_TYPES : list string := ["income"; "expense"; "transfer"].

(** *** The three tables ([created_at] is read by no query) *)
Record account : Type := mkaccount {
  acc_id : Z;
  acc_name : string;
  acc_currency : string
}.

Record transaction : Type := mktransaction {
  tx_id : Z;
  tx_date : string;
  tx_type : string;
  tx_category : string;
  tx_amount : Q;
  tx_currency : string;
  tx_account_id : Z;
  tx_note : string
}.

Record exchange_rate : Type := mkrate {
  er_id : Z;
  er_from : string;
  er_to : string;
  er_rate : Q;
  er_date : string;
  er_source : string
}.

Record store : Type := mkstore {
  accounts : list account;
  transactions : list transaction;
  exchange_rates : list exchange_rate
}.

Definition empty_store : store := mkstore [] [] [].

Definition insert_account (st : store) (name currency : string)
  : Z * store :=
  let id := Sql.next_rowid (map acc_id (accounts st)) in
  (id, mkstore (accounts st ++ [mkaccount id name currency])
               (transactions st) (exchange_rates st)).

Definition insert_rate (tbl : list exchange_rate)
    (from_curr to_curr : string) (rate : Q) (day source : string)
  : list exchange_rate :=
  tbl ++ [mkrate (Sql.next_rowid (map er_id tbl))
                 from_curr to_curr rate day source].

Definition default_rates : list (string * string * Q) :=
  [("USD", "CNY", 72 # 10); ("EUR", "CNY", 78 # 10); ("GBP", "CNY", 9 # 1);
   ("CNY", "USD", 1 / (72 # 10)); ("USD", "EUR", 92 # 100);
   ("EUR", "USD", 1 / (92 # 100))]%Q.

(** [init_db]: the tables exist; an empty accounts table gets the
    default account, an empty rate table the default rates. *)
Definition init_db (today : string) (st : store) : store :=
  let st1 :=
    match accounts st with
    | [] => snd (insert_account st "Main Account" "CNY")
    | _ => st
    end in
  match exchange_rates st1 with
  | [] =>
      mkstore (accounts st1) (transactions st1)
        (fold_left
           (fun tbl '(from_curr, to_curr, rate) =>
              insert_rate tbl from_curr to_curr rate today "default")
           default_rates (exchange_rates st1))
  | _ => st1
  end.

(** *** [get_transactions] *)
Record tx_row : Type := mkrow {
  row_tx : transaction;
  account_name : option string
}.

(** [LEFT JOIN accounts a ON t.account_id = a.id] *)
Definition join_account (accs : list account) (t : transaction) : tx_row :=
  mkrow t (option_map acc_name
             (find (fun a => (acc_id a =? tx_account_id t)%Z) accs)).

(** [ORDER BY t.date DESC, t.id DESC] *)
Definition by_date_desc_id_desc (a b : transaction) : comparison :=
  match String.compare (tx_date b) (tx_date a) with
  | Eq => Z.compare (tx_id b) (tx_id a)
  | c => c
  end.

Definition int_truthy (x : option Z) : bool :=
  match x with
  | Some z => negb (z =? 0)%Z
  | None => false
  end.

Definition in_month (year month : Z) (t : transaction) : bool :=
  Sql.text_eq (Sql.strftime_Y (tx_date t)) (Py.str_of_int year)
  && Sql.text_eq (Sql.strftime_m (tx_date t)) (Py.fmt_02d month).

Definition where_clause (account_id year month : option Z)
    (t : transaction) : bool :=
  (if int_truthy account_id
   then match account_id with
        | Some a => (tx_account_id t =? a)%Z
        | None => true
        end
   else true)
  && (if int_truthy year && int_truthy month
      then match year, month with
           | Some y, Some m => in_month y m t
           | _, _ => true
           end
      else true).

Definition get_transactions (st : store) (limit : Z)
    (account_id year month : option Z) : list tx_row :=
  map (join_account (accounts st))
    (Sql.limit limit
       (Sql.order_by by_date_desc_id_desc
          (filter (where_clause account_id year month)
             (transactions st)))).

(** *** [get_latest_rate] *)

(** A computation that reads the rate table returns its value together
    with the lookups it made, in the order it made them. *)
Definition lookup : Type := string * string.
Definition Db (A : Type) : Type := list exchange_rate -> A * list lookup.

Definition ret {A : Type} (a : A) : Db A := fun _ => (a, []).
Definition bind {A B : Type} (m : Db A) (k : A -> Db B) : Db B :=
  fun tbl =>
    let (a, l1) := m tbl in
    let (b, l2) := k a tbl in
    (b, (l1 ++ l2)%list).

Notation "x <- m ;; k" := (bind m (fun x => k))
  (at level 100, m at next level, right associativity).

Definition pair_is (f t : string) (r : exchange_rate) : bool :=
  String.eqb (er_from r) f && String.eqb (er_to r) t.

(** [ORDER BY date DESC] *)
Definition by_date_desc (a b : exchange_rate) : comparison :=
  String.compare (er_date b) (er_date a).

(** [SELECT rate FROM exchange_rates WHERE from_currency = ? AND
    to_currency = ? ORDER BY date DESC LIMIT 1], then [fetchone()].
    The table has no index, so the scan is in rowid order; the ORDER BY
    names the date alone, so among the rows of the latest date the one
    scanned first is returned. *)
Definition latest_row (tbl : list exchange_rate) (f t : string)
  : option exchange_rate :=
  hd_error (Sql.limit 1 (Sql.order_by by_date_desc (filter (pair_is f t) tbl))).

Definition select_latest (f t : string) : Db (option Q) :=
  fun tbl => (option_map er_rate (latest_row tbl f t), [(f, t)]).

Definition nonzero (q : Q) : bool := negb (Qeq_bool q 0).

Definition get_latest_rate (from_currency to_currency : string) : Db Q :=
  if String.eqb from_currency to_currency then ret 1%Q
  else
    let via_usd : Db Q :=
      if negb (String.eqb from_currency "USD")
         && negb (String.eqb to_currency "USD")
      then
        r_from_usd <- select_latest from_currency "USD" ;;
        r_usd_to <- select_latest "USD" to_currency ;;
        match r_from_usd, r_usd_to with
        | Some x, Some y =>
            if nonzero x && nonzero y then ret (x * y)%Q else ret 1%Q
        | _, _ => ret 1%Q
        end
      else ret 1%Q in
    r <- select_latest from_currency to_currency ;;
    match r with
    | Some rate => ret rate
    | None =>
        r2 <- select_latest to_currency from_currency ;;
        match r2 with
        | Some rate2 =>
            if nonzero rate2 then ret (1 / rate2)%Q else via_usd
        | None => via_usd
        end
    end.

(** The value alone, for callers that only convert. *)
Definition latest_rate (st : store) (from_currency to_currency : string)
  : Q :=
  fst (get_latest_rate from_currency to_currency (exchange_rates st)).

(** *** [api_dashboard]: the balance of each account *)
Definition balance_step (st : store) (acc_currency : string)
    (balance : Q) (r : transaction) : Q :=
  let amt := tx_amount r in
  let src_curr := tx_currency r in
  let rate := latest_rate st src_curr acc_currency in
  let converted := (amt * rate)%Q in
  if String.eqb (tx_type r) "expense"
  then (balance - converted)%Q
  else (balance + converted)%Q.

Definition account_balance (st : store) (acc : account) : Q :=
  let rows :=
    filter (fun t => (tx_account_id t =? acc_id acc)%Z) (transactions st) in
  Py.round2 (fold_left (balance_step st (acc_currency acc)) rows 0%Q).

Definition api_dashboard_accounts (st : store) : list (account * Q) :=
  map (fun acc => (acc, account_balance st acc)) (accounts st).

(** *** [api_monthly_report] *)

(** [sum(...)]: left to right, from 0. *)
Definition py_sum (l : list Q) : Q := fold_left Qplus l 0%Q.

Definition amounts_of_type (ty : string) (rows : list tx_row) : list Q :=
  map (fun r => tx_amount (row_tx r))
    (filter (fun r => String.eqb (tx_type (row_tx r)) ty) rows).

(** A [dict] from category to amount, keys in order of first insertion. *)
Definition dict : Type := list (string * Q).

Fixpoint dict_get (d : dict) (k : string) (default : Q) : Q :=
  match d with
  | (k', v) :: r => if String.eqb k' k then v else dict_get r k default
  | [] => default
  end.

Fixpoint dict_set (d : dict) (k : string) (v : Q) : dict :=
  match d with
  | (k', v') :: r =>
      if String.eqb k' k then (k', v) :: r else (k', v') :: dict_set r k v
  | [] => [(k, v)]
  end.

(** [{}] *)
Definition empty_dict : dict := [].

Definition dict_values (d : dict) : list Q := map snd d.
Definition dict_keys (d : dict) : list string := map fst d.

(** One turn of the loop that fills the two breakdowns. *)
Definition by_category_step (acc : dict * dict) (tx : tx_row)
  : dict * dict :=
  let '(expense_by_category, income_by_category) := acc in
  let category := tx_category (row_tx tx) in
  let amount := tx_amount (row_tx tx) in
  if String.eqb (tx_type (row_tx tx)) "expense"
  then (dict_set expense_by_category category
          (dict_get expense_by_category category 0 + amount)%Q,
        income_by_category)
  else (expense_by_category,
        dict_set income_by_category category
          (dict_get income_by_category category 0 + amount)%Q).

Record report : Type := mkreport {
  rep_year : Z;
  rep_month : Z;
  income_total : Q;
  expense_total : Q;
  net : Q;
  transaction_count : nat;
  expense_by_category : dict;
  income_by_category : dict;
  rep_transactions : list tx_row
}.

Definition monthly_report_of (year month : Z) (txs : list tx_row)
  : report :=
  let income_total := py_sum (amounts_of_type "income" txs) in
  let expense_total := py_sum (amounts_of_type "expense" txs) in
  let '(expense_by_category, income_by_category) :=
    fold_left by_category_step txs (empty_dict, empty_dict) in
  mkreport year month income_total expense_total
    (income_total - expense_total)%Q (List.length txs)
    expense_by_category income_by_category txs.

Definition api_monthly_report (st : store) (year month : Z) : report :=
  monthly_report_of year month
    (get_transactions st 10000 None (Some year) (Some month)).




(** *** The POST handlers *)

(** What a handler answers: the JSON body of a 200, the error message
    of a 400, or the 500 of an exception nothing catches. *)
Inductive response (A : Type) : Type :=
| Ok (body : A)
| Err400 (error : string)
| Err500.
Arguments Ok {A} body.
Arguments Err400 {A} error.
Arguments Err500 {A}.

Definition and_then {A B : Type} (m : response A) (k : A -> response B)
  : response B :=
  match m with
  | Ok a => k a
  | Err400 e => Err400 e
  | Err500 => Err500
  end.

Notation "x <-? m ;; k" := (and_then m (fun x => k))
  (at level 100, m at next level, right associativity).

(** [(x or d)] followed by a [str] method: the method exists only on a
    string, anything else that is truthy raises [AttributeError]. *)
Definition str_or (x : option Py.json) (d : string) : response string :=
  match x with
  | Some j =>
      if Py.truthy j
      then match j with Py.JStr s => Ok s | _ => Err500 end
      else Ok d
  | None => Ok d
  end.

Record account_form : Type := mkaccount_form {
  af_name : option Py.json;
  af_currency : option Py.json
}.

Definition api_add_account (st : store) (data : account_form)
  : response account * store :=
  let checked :=
    name <-? (s <-? str_or (af_name data) "" ;; Ok (Py.strip s)) ;;
    currency <-? (s <-? str_or (af_currency data) "CNY" ;; Ok (Py.upper s)) ;;
    if String.eqb name "" then Err400 "Account name is required"
    else if negb (Py.str_in currency CURRENCIES)
    then Err400 ("Unsupported currency: " ++ currency)
    else Ok (name, currency) in
  match checked with
  | Ok (name, currency) =>
      let (account_id, st') := insert_account st name currency in
      (Ok (mkaccount account_id name currency), st')
  | Err400 e => (Err400 e, st)
  | Err500 => (Err500, st)
  end.

(** The body of [POST /api/transactions].  [None] is an absent key.
    [category] and [note] are JSON strings and [account_id] a JSON
    integer when present (a null [account_id] reads as absent). *)
Record tx_form : Type := mktx_form {
  f_date : option Py.json;
  f_type : option Py.json;
  f_category : option string;
  f_amount : option Py.json;
  f_currency : option Py.json;
  f_account_id : option Z;
  f_note : option string
}.

Definition present {A : Type} (x : option A) : bool :=
  match x with Some _ => true | None => false end.

(** [fld in data] *)
Definition has_field (data : tx_form) (fld : string) : bool :=
  if String.eqb fld "date" then present (f_date data)
  else if String.eqb fld "type" then present (f_type data)
  else if String.eqb fld "category" then present (f_category data)
  else if String.eqb fld "amount" then present (f_amount data)
  else if String.eqb fld "currency" then present (f_currency data)
  else if String.eqb fld "account_id" then present (f_account_id data)
  else if String.eqb fld "note" then present (f_note data)
  else false.

Definition required_fields : list string :=
  ["date"; "type"; "category"; "amount"; "currency"].

Definition parse_iso_date (datestr : option Py.json) : response Py.date :=
  match datestr with
  | Some (Py.JStr s) =>
      match Py.strptime_ymd s with
      | Some d => Ok d
      | None => Err400 "Date must be in YYYY-MM-DD format"
      end
  | _ => Err400 "Date must be in YYYY-MM-DD format"
  end.

Definition positive_number (x : option Py.json) (error : string)
  : response Q :=
  match x with
  | Some j =>
      match Py.float j with
      | Some v => if Qle_bool v 0 then Err400 error else Ok v
      | None => Err400 error
      end
  | None => Err400 error
  end.

(** The checks of [api_add_transaction], in the order of the source,
    down to the row it is about to insert (without its id). *)
Definition checked_transaction (st : store) (data : tx_form)
  : response transaction :=
  match find (fun fld => negb (has_field data fld)) required_fields with
  | Some fld => Err400 (fld ++ " is required")
  | None =>
      d <-? parse_iso_date (f_date data) ;;
      tx_type <-? match f_type data with
                  | Some (Py.JStr s) => Ok (Py.strip (Py.lower s))
                  | _ => Err500
                  end ;;
      if negb (Py.str_in tx_type ALLOWED_TYPES)
      then Err400 "invalid type (allowed: ['expense', 'income', 'transfer'])"
      else
        let category :=
          match f_category data with Some c => c | None => "" end in
        amount <-? positive_number (f_amount data)
                     "Invalid amount; must be positive number" ;;
        currency <-? (s <-? str_or (f_currency data) "CNY" ;;
                      Ok (Py.upper s)) ;;
        if negb (Py.str_in currency CURRENCIES)
        then Err400 ("Unsupported currency: " ++ currency)
        else
          account_id <-?
            (if int_truthy (f_account_id data)
             then Ok (match f_account_id data with
                      | Some a => a
                      | None => 0%Z
                      end)
             else match accounts st with
                  | first_account :: _ => Ok (acc_id first_account)
                  | [] => Err400 "No accounts found"
                  end) ;;
          let note := match f_note data with Some n => n | None => "" end in
          Ok (mktransaction 0 (Py.isoformat d) tx_type category amount
                currency account_id note)
  end.

Definition insert_transaction (st : store) (t : transaction) : Z * store :=
  let id := Sql.next_rowid (map tx_id (transactions st)) in
  (id, mkstore (accounts st)
         (transactions st ++
            [mktransaction id (tx_date t) (tx_type t) (tx_category t)
               (tx_amount t) (tx_currency t) (tx_account_id t) (tx_note t)])
         (exchange_rates st)).

Definition api_add_transaction (st : store) (data : tx_form)
  : response Z * store :=
  match checked_transaction st data with
  | Ok t => let (tx_id, st') := insert_transaction st t in (Ok tx_id, st')
  | Err400 e => (Err400 e, st)
  | Err500 => (Err500, st)
  end.

Record rate_form : Type := mkrate_form {
  rf_from_currency : option Py.json;
  rf_to_currency : option Py.json;
  rf_rate : option Py.json
}.

Definition api_add_rate (today : string) (st : store) (data : rate_form)
  : response unit * store :=
  let checked :=
    from_currency <-? (s <-? str_or (rf_from_currency data) "" ;;
                       Ok (Py.upper s)) ;;
    to_currency <-? (s <-? str_or (rf_to_currency data) "" ;;
                     Ok (Py.upper s)) ;;
    if String.eqb from_currency "" || String.eqb to_currency ""
       || match rf_rate data with
          | None | Some Py.JNull => true
          | _ => false
          end
    then Err400 "All fields are required (from_currency, to_currency, rate)"
    else
      rate <-? positive_number (rf_rate data)
                 "Invalid rate; must be positive number" ;;
      if negb (Py.str_in from_currency CURRENCIES)
         || negb (Py.str_in to_currency CURRENCIES)
      then Err400 "Unsupported currency in from/to"
      else Ok (from_currency, to_currency, rate) in
  match checked with
  | Ok (from_currency, to_currency, rate) =>
      (Ok tt,
       mkstore (accounts st) (transactions st)
         (insert_rate (exchange_rates st) from_currency to_currency rate
            today "manual"))
  | Err400 e => (Err400 e, st)
  | Err500 => (Err500, st)
  end.

(** *** [update_rates], the body of the refresh thread *)

(** The [rates] object of the fetched document. *)
Definition rates_doc : Type := list (string * Py.json).

Fixpoint doc_get (rates : rates_doc) (k : string) : option Py.json :=
  match rates with
  | (k', v) :: r => if String.eqb k' k then Some v else doc_get r k
  | [] => None
  end.

(** The loop over [CURRENCIES], inside the connection's [with] block:
    [None] is an exception raised by [float], which leaves the block
    before the commit. *)
Fixpoint insert_fetched (today : string) (rates : rates_doc)
    (cs : list string) (tbl : list exchange_rate) (inserted : nat)
  : option (list exchange_rate * nat) :=
  match cs with
  | [] => Some (tbl, inserted)
  | currency :: rest =>
      match doc_get rates currency with
      | Some v =>
          if negb (String.eqb currency "USD") then
            match Py.float v with
            | Some rate =>
                insert_fetched today rates rest
                  (insert_rate tbl "USD" currency rate today "api")
                  (inserted + 1)
            | None => None
            end
          else insert_fetched today rates rest tbl inserted
      | None => insert_fetched today rates rest tbl inserted
      end
  end.

(** [fetched] is [None] when the request, its status check or the
    decoding of the body raised; otherwise it is the [rates] object.
    An exception inside the [with] block rolls the inserts back. *)
Definition update_rates (today : string) (fetched : option rates_doc)
    (st : store) : bool * store :=
  match fetched with
  | Some rates =>
      match insert_fetched today rates CURRENCIES (exchange_rates st) 0 with
      | Some (tbl, _) =>
          (true, mkstore (accounts st) (transactions st) tbl)
      | None => (false, st)
      end
  | None => (false, st)
  end.

(** *** [get_accounts] and [get_exchange_rates] *)

(** [ORDER BY name] *)
Definition by_name (a b : account) : comparison :=
  String.compare (acc_name a) (acc_name b).

Definition get_accounts (st : store) : list account :=
  Sql.order_by by_name (accounts st).

(** [SELECT * FROM exchange_rates ORDER BY date DESC LIMIT ?] *)
Definition get_exchange_rates (st : store) (limit : Z)
  : list exchange_rate :=
  Sql.limit limit (Sql.order_by by_date_desc (exchange_rates st)).

(** *** [api_dashboard]: the month's summary and the recent rows *)
Record summary_row : Type := mksummary {
  sum_type : string;
  sum_total : Q;
  sum_currency : string
}.

Definition type_currency_cmp (a b : string * string) : comparison :=
  match String.compare (fst a) (fst b) with
  | Eq => String.compare (snd a) (snd b)
  | c => c
  end.

(** [SELECT type, SUM(amount) as total, currency FROM transactions
    WHERE strftime('%Y', date) = ? AND strftime('%m', date) = ?
    GROUP BY type, currency], for the year and month of [today]. *)
Definition monthly_summary (st : store) (yr mo : Z) : list summary_row :=
  map (fun '((ty, currency), total) => mksummary ty total currency)
    (Sql.group_by_sum type_currency_cmp
       (fun t => (tx_type t, tx_currency t)) tx_amount
       (filter (in_month yr mo) (transactions st))).

(** [... ORDER BY t.date DESC, t.id DESC LIMIT 10] *)
Definition recent_transactions (st : store) : list tx_row :=
  map (join_account (accounts st))
    (Sql.limit 10 (Sql.order_by by_date_desc_id_desc (transactions st))).

Record dashboard : Type := mkdashboard {
  dash_monthly_summary : list summary_row;
  dash_recent_transactions : list tx_row;
  dash_accounts : list (account * Q)
}.

Definition api_dashboard (today : Py.date) (st : store) : dashboard :=
  let yr := Py.year today in
  let mo := Py.month today in
  mkdashboard (monthly_summary st yr mo) (recent_transactions st)
    (api_dashboard_accounts st).

(** *** [api_monthly_report_pdf]: the pages of the transaction table *)
Record table_page : Type := mkpage {
  page_start : nat;
  page_end : nat;
  page_rows : list tx_row
}.

(** [df.iloc[start:end]] *)
Definition iloc {A : Type} (df : list A) (start stop : nat) : list A :=
  firstn (stop - start) (skipn start df).

(** The loop [for p in range(pages)]; a page is titled
    [Transactions {start+1} - {end}]. *)
Definition table_pages (df : list tx_row) : list table_page :=
  let rows_per_page := 25 in
  let total_rows := List.length df in
  let pages := (total_rows + rows_per_page - 1) / rows_per_page in
  map (fun p =>
         let start := p * rows_per_page in
         let stop := Nat.min (start + rows_per_page) total_rows in
         mkpage start stop (iloc df start stop))
    (seq 0 pages).


Definition api_monthly_report_pdf_pages (st : store) (year month : Z)
  : list table_page :=
  table_pages (get_transactions st 10000 None (Some year) (Some month)).

End FinanceApp.

(** ** server.py *)
Module Server.

Record transaction : Type := mktransaction {
  tx_id : Z;
  tx_date : string;
  tx_type : string;
  tx_category : string;
  tx_amount : Q;
  tx_currency : string;
  tx_note : string
}.

Record exchange_rate : Type := mkrate {
  er_id : Z;
  er_from : string;
  er_to : string;
  er_rate : Q;
  er_date : string;
  er_source : string
}.

(** Both tables are AUTOINCREMENT: [rate_seq] is the largest rowid the
    rate table ever held, which outlives the rows ([transactions] is
    never deleted from, so its largest rowid is in the table). *)
Record store : Type := mkstore {
  transactions : list transaction;
  exchange_rates : list exchange_rate;
  rate_seq : Z
}.

(** The body of [POST /api/transactions]: text fields are JSON strings
    and [amount] a JSON number when present; [None] is an absent key. *)
Record tx_form : Type := mktx_form {
  f_date : option string;
  f_type : option string;
  f_category : option string;
  f_amount : option Q;
  f_currency : option string;
  f_note : option string
}.

(** The 200 with the new id, or the 500 of the [except] clause. *)
Inductive reply : Type :=
| Success (id : Z)
| Error500.

(** [handle_add_transaction]: the fields go to the INSERT as they
    came; a missing key raises [KeyError] inside the [try]. *)
Definition handle_add_transaction (st : store) (data : tx_form)
  : reply * store :=
  match f_date data, f_type data, f_category data,
        f_amount data, f_currency data with
  | Some d, Some ty, Some category, Some amount, Some currency =>
      let note := match f_note data with Some n => n | None => "" end in
      let transaction_id :=
        Sql.next_rowid (map tx_id (transactions st)) in
      (Success transaction_id,
       mkstore
         (transactions st ++
            [mktransaction transaction_id d ty category amount currency
               note])
         (exchange_rates st) (rate_seq st))
  | _, _, _, _, _ => (Error500, st)
  end.

Definition rates_data : list (string * string * Q) :=
  [("USD", "CNY", 72345 # 10000); ("EUR", "CNY", 78901 # 10000);
   ("GBP", "CNY", 91234 # 10000); ("CNY", "USD", 1383 # 10000);
   ("CNY", "EUR", 1267 # 10000); ("CNY", "GBP", 1096 # 10000)]%Q.

Definition insert_rate (st : store) (from_curr to_curr : string)
    (rate : Q) (today : string) : store :=
  let id := (1 + Z.max (rate_seq st)
                   (fold_right Z.max 0 (map er_id (exchange_rates st))))%Z in
  mkstore (transactions st)
    (exchange_rates st ++ [mkrate id from_curr to_curr rate today "api"])
    id.

(** [handle_update_rates]: [DELETE FROM exchange_rates], then one
    INSERT per entry of the built-in [rates_data]; the answer is the
    200 with [success]. *)
Definition handle_update_rates (today : string) (st : store) : store :=
  let cleared := mkstore (transactions st) [] (rate_seq st) in
  fold_left
    (fun s '(from_curr, to_curr, rate) =>
       insert_rate s from_curr to_curr rate today)
    rates_data cleared.

(** [handle_get_monthly_report] *)
Record report : Type := mkreport {
  income_total : Q;
  expense_total : Q;
  net : Q;
  expense_by_category : list (string * Q);
  income_by_category : list (string * Q)
}.

(** [date LIKE 'YYYY-MM%'] *)
Definition like_month (month_str : string) (t : transaction) : bool :=
  String.prefix month_str (tx_date t).

Fixpoint get_total (totals : list (string * Q)) (k : string) (default : Q)
  : Q :=
  match totals with
  | (k', v) :: r => if String.eqb k' k then v else get_total r k default
  | [] => default
  end.

(** [d[k] = v] *)
Fixpoint assign (d : list (string * Q)) (k : string) (v : Q)
  : list (string * Q) :=
  match d with
  | (k', v') :: r =>
      if String.eqb k' k then (k', v) :: r else (k', v') :: assign r k v
  | [] => [(k, v)]
  end.

Definition type_category_cmp (a b : string * string) : comparison :=
  match String.compare (fst a) (fst b) with
  | Eq => String.compare (snd a) (snd b)
  | c => c
  end.

Definition handle_get_monthly_report (st : store) (year month : Z)
  : report :=
  let month_str := Py.str_of_int year ++ "-" ++ Py.fmt_02d month in
  let rows := filter (like_month month_str) (transactions st) in
  let totals := Sql.group_by_sum String.compare tx_type tx_amount rows in
  let breakdown :=
    Sql.group_by_sum type_category_cmp
      (fun t => (tx_type t, tx_category t)) tx_amount rows in
  let '(expense_by_category, income_by_category) :=
    fold_left
      (fun '(e, i) '((ty, category), total) =>
         if String.eqb ty "expense"
         then (assign e category total, i)
         else (e, assign i category total))
      breakdown ([], []) in
  mkreport (get_total totals "income" 0) (get_total totals "expense" 0)
    (get_total totals "income" 0 - get_total totals "expense" 0)%Q
    expense_by_category income_by_category.

End Server.

(** * Vocabulary of the properties *)

(** The order of date texts, as [ORDER BY date] compares them. *)
Definition text_le (a b : string) : Prop := String.compare a b <> Gt.
Definition text_lt (a b : string) : Prop := String.compare a b = Lt.

(** [a] may stand before [b] in a list ordered by [cmp]. *)
Definition in_order {A : Type} (cmp : A -> A -> comparison) (a b : A)
  : Prop :=
  cmp b a <> Lt.

(** The table quotes a rate for the pair. *)
Definition quoted (tbl : list FinanceApp.exchange_rate) (f t : string)
  : Prop :=
  exists r, In r tbl /\ FinanceApp.er_from r = f /\ FinanceApp.er_to r = t.

(** [r] is a row of the pair that no row of the pair is dated after. *)
Definition most_recent (tbl : list FinanceApp.exchange_rate) (f t : string)
    (r : FinanceApp.exchange_rate) : Prop :=
  In r tbl /\ FinanceApp.er_from r = f /\ FinanceApp.er_to r = t /\
  forall r', In r' tbl ->
    FinanceApp.er_from r' = f -> FinanceApp.er_to r' = t ->
    text_le (FinanceApp.er_date r') (FinanceApp.er_date r).

(** The reverse lookup gives nothing to divide by. *)
Definition no_reverse (tbl : list FinanceApp.exchange_rate) (f t : string)
  : Prop :=
  match FinanceApp.latest_row tbl t f with
  | Some r => FinanceApp.er_rate r == 0
  | None => True
  end.

(** A table that quotes only EUR -> USD and USD -> CNY. *)
Definition bridge_store : FinanceApp.store :=
  FinanceApp.mkstore [] []
    [FinanceApp.mkrate 1 "EUR" "USD" (11 # 10) "2024-01-01" "manual";
     FinanceApp.mkrate 2 "USD" "CNY" (72 # 10) "2024-01-02" "manual"].

(** A manual USD -> CNY rate of 7.3 entered on the day the store was
    initialised with its default rates. *)
Definition manual_rate_form : FinanceApp.rate_form :=
  FinanceApp.mkrate_form (Some (Py.JStr "USD")) (Some (Py.JStr "CNY"))
    (Some (Py.JNum (73 # 10))).

Definition same_day_store : FinanceApp.store :=
  snd (FinanceApp.api_add_rate "2024-06-01"
         (FinanceApp.init_db "2024-06-01" FinanceApp.empty_store)
         manual_rate_form).

(** The converted amount of a transaction, in the currency of an account. *)
Definition converted (st : FinanceApp.store) (acc : FinanceApp.account)
    (t : FinanceApp.transaction) : Q :=
  (FinanceApp.tx_amount t *
   FinanceApp.latest_rate st (FinanceApp.tx_currency t)
     (FinanceApp.acc_currency acc))%Q.

Definition q_sum (l : list Q) : Q := fold_right Qplus 0%Q l.

Definition is_expense (t : FinanceApp.transaction) : bool :=
  String.eqb (FinanceApp.tx_type t) "expense".

Definition own_rows (st : FinanceApp.store) (acc : FinanceApp.account)
  : list FinanceApp.transaction :=
  filter (fun t => (FinanceApp.tx_account_id t =? FinanceApp.acc_id acc)%Z)
    (FinanceApp.transactions st).


(** A transfer of 100 CNY booked in March 2024 on a fresh store. *)
Definition transfer_form : FinanceApp.tx_form :=
  FinanceApp.mktx_form (Some (Py.JStr "2024-03-10")) (Some (Py.JStr "transfer"))
    (Some "Savings") (Some (Py.JNum 100)) (Some (Py.JStr "CNY")) None None.

Definition transfer_store : FinanceApp.store :=
  snd (FinanceApp.api_add_transaction
         (FinanceApp.init_db "2024-03-01" FinanceApp.empty_store)
         transfer_form).

Definition server_empty : Server.store := Server.mkstore [] [] 0.

(** On server.py: an income of 5 and a transfer of 7, both in category
    [Misc], in March 2024. *)
Definition server_transfer_store : Server.store :=
  snd (Server.handle_add_transaction
         (snd (Server.handle_add_transaction server_empty
                 (Server.mktx_form (Some "2024-03-01") (Some "income")
                    (Some "Misc") (Some 5%Q) (Some "CNY") None)))
         (Server.mktx_form (Some "2024-03-09") (Some "transfer")
            (Some "Misc") (Some 7%Q) (Some "CNY") None)).

(** The rows of a report that are, or are not, expenses. *)
Definition row_is_expense (r : FinanceApp.tx_row) : bool :=
  String.eqb (FinanceApp.tx_type (FinanceApp.row_tx r)) "expense".

Definition row_amounts (rows : list FinanceApp.tx_row) : list Q :=
  map (fun r => FinanceApp.tx_amount (FinanceApp.row_tx r)) rows.

Definition row_is_income (r : FinanceApp.tx_row) : bool :=
  String.eqb (FinanceApp.tx_type (FinanceApp.row_tx r)) "income".


(** On server.py: the rate table after one refresh, on 1 January 2024. *)
Definition server_refreshed : Server.store :=
  Server.handle_update_rates "2024-01-01" server_empty.

(** A row written by the refresh of finance_app.py on day [today]. *)
Definition fetched_row (today : string) (cs : list string)
    (r : FinanceApp.exchange_rate) : Prop :=
  FinanceApp.er_from r = "USD" /\ In (FinanceApp.er_to r) cs
  /\ FinanceApp.er_to r <> "USD"
  /\ FinanceApp.er_date r = today /\ FinanceApp.er_source r = "api".

(** A fetched document whose rates all convert. *)
Definition fetched_doc : FinanceApp.rates_doc :=
  [("CNY", Py.JNum (71 # 10)); ("USD", Py.JNum 1); ("EUR", Py.JStr "0.9")].

(** A fetched document with a rate that [float] cannot convert. *)
Definition malformed_doc : FinanceApp.rates_doc :=
  [("CNY", Py.JNum (71 # 10)); ("EUR", Py.JStr "n/a")].

(** *** Submissions to [POST /api/transactions] *)

(** The first required key the body lacks. *)
Definition missing_field (data : FinanceApp.tx_form) : option string :=
  find (fun fld => negb (FinanceApp.has_field data fld))
    FinanceApp.required_fields.

Definition date_ok (data : FinanceApp.tx_form) (d : Py.date) : Prop :=
  missing_field data = None
  /\ FinanceApp.parse_iso_date (FinanceApp.f_date data) = FinanceApp.Ok d.

(** The type is a text that, lower-cased and stripped, is [ty]. *)
Definition type_is (data : FinanceApp.tx_form) (ty : string) : Prop :=
  exists s, FinanceApp.f_type data = Some (Py.JStr s)
            /\ ty = Py.strip (Py.lower s).

Definition type_ok (data : FinanceApp.tx_form) (ty : string) : Prop :=
  type_is data ty /\ Py.str_in ty FinanceApp.ALLOWED_TYPES = true.

(** The amount converts to the number [a]. *)
Definition amount_is (data : FinanceApp.tx_form) (a : Q) : Prop :=
  exists j, FinanceApp.f_amount data = Some j /\ Py.float j = Some a.


Definition amount_ok (data : FinanceApp.tx_form) (a : Q) : Prop :=
  amount_is data a /\ (0 < a)%Q.

(** The currency is a text (or empty, null, absent: then CNY) that
    upper-cased is [c]. *)
Definition currency_is (data : FinanceApp.tx_form) (c : string) : Prop :=
  exists s, FinanceApp.str_or (FinanceApp.f_currency data) "CNY"
            = FinanceApp.Ok s
            /\ c = Py.upper s.

Definition supported (c : string) : Prop :=
  Py.str_in c FinanceApp.CURRENCIES = true.

Definition category_of (data : FinanceApp.tx_form) : string :=
  match FinanceApp.f_category data with Some c => c | None => "" end.

Definition note_of (data : FinanceApp.tx_form) : string :=
  match FinanceApp.f_note data with Some n => n | None => "" end.

(** The account a submission is booked on: the one it names, or the
    first account of the table. *)
Definition booked_on (st : FinanceApp.store) (data : FinanceApp.tx_form)
    (account_id : Z) : Prop :=
  (FinanceApp.int_truthy (FinanceApp.f_account_id data) = true
   /\ FinanceApp.f_account_id data = Some account_id)
  \/ (FinanceApp.int_truthy (FinanceApp.f_account_id data) = false
      /\ exists first_account rest,
           FinanceApp.accounts st = first_account :: rest
           /\ account_id = FinanceApp.acc_id first_account).




(** A submission that breaks every rule at once. *)
Definition all_wrong_form : FinanceApp.tx_form :=
  FinanceApp.mktx_form (Some (Py.JStr "31/12/2024")) (Some (Py.JStr "gift"))
    (Some "Misc") (Some (Py.JNum (-5 # 1))) (Some (Py.JStr "ZZZ")) None None.


(** The same expense without an account. *)
Definition plain_form : FinanceApp.tx_form :=
  FinanceApp.mktx_form (Some (Py.JStr "2024-03-01")) (Some (Py.JStr "expense"))
    (Some "Food") (Some (Py.JNum 50)) (Some (Py.JStr "CNY")) None None.

Definition seeded_store : FinanceApp.store :=
  FinanceApp.init_db "2024-03-01" FinanceApp.empty_store.

(** The accounts table is in rowid order. *)
Definition accounts_in_rowid_order (st : FinanceApp.store) : Prop :=
  StronglySorted Z.lt (map FinanceApp.acc_id (FinanceApp.accounts st)).


(** *** Submissions to [POST /api/accounts] and [POST /api/exchange-rates] *)



(** The two currencies of a rate submission, upper-cased. *)
Definition rate_pair_is (data : FinanceApp.rate_form) (f t : string) : Prop :=
  exists sf st,
    FinanceApp.str_or (FinanceApp.rf_from_currency data) "" = FinanceApp.Ok sf
    /\ FinanceApp.str_or (FinanceApp.rf_to_currency data) "" = FinanceApp.Ok st
    /\ f = Py.upper sf /\ t = Py.upper st.

(** The rate is given, and not null. *)
Definition rate_given (data : FinanceApp.rate_form) : Prop :=
  exists j, FinanceApp.rf_rate data = Some j /\ j <> Py.JNull.

(** The rate converts to the positive number [q]. *)
Definition rate_is (data : FinanceApp.rate_form) (q : Q) : Prop :=
  exists j, FinanceApp.rf_rate data = Some j /\ Py.float j = Some q
            /\ (0 < q)%Q.


(** The columns of a rate row other than its id. *)
Definition rate_fields (r : FinanceApp.exchange_rate)
  : string * string * Q * string * string :=
  (FinanceApp.er_from r, FinanceApp.er_to r, FinanceApp.er_rate r,
   FinanceApp.er_date r, FinanceApp.er_source r).


(** *** The refresh of finance_app.py *)

(** The currencies the refresh writes a row for: those of [cs] that the
    fetched document has, USD apart. *)
Definition wanted (rates : FinanceApp.rates_doc) (cs : list string)
  : list string :=
  filter (fun c => match FinanceApp.doc_get rates c with
                   | Some _ => negb (String.eqb c "USD")
                   | None => false
                   end) cs.

(** The number the fetched document gives for a currency. *)
Definition fetched_rate (rates : FinanceApp.rates_doc) (c : string)
  : option Q :=
  match FinanceApp.doc_get rates c with
  | Some v => Py.float v
  | None => None
  end.

(** [r] is the row of the refresh for currency [c]. *)
Definition fetched_as (today : string) (rates : FinanceApp.rates_doc)
    (c : string) (r : FinanceApp.exchange_rate) : Prop :=
  FinanceApp.er_from r = "USD" /\ FinanceApp.er_to r = c
  /\ fetched_rate rates c = Some (FinanceApp.er_rate r)
  /\ FinanceApp.er_date r = today /\ FinanceApp.er_source r = "api".

(** Every row of the pair is dated before [day]. *)
Definition older_than (tbl : list FinanceApp.exchange_rate) (f t : string)
    (day : string) : Prop :=
  forall r, In r tbl -> FinanceApp.er_from r = f -> FinanceApp.er_to r = t ->
            text_lt (FinanceApp.er_date r) day.

(** A store whose default rates are from 1 January 2024. *)
Definition january_store : FinanceApp.store :=
  FinanceApp.init_db "2024-01-01" FinanceApp.empty_store.

(** *** The rows behind a figure of the report *)






(** *** Balances *)




(** *** Grouped sums *)

(** The rows of a key. *)
Definition keyed {A K : Type} (cmp : K -> K -> comparison) (key : A -> K)
    (k : K) (rows : list A) : list A :=
  filter (fun r => Sql.key_eqb cmp (key r) k) rows.

(** The groups hold one entry per key of the rows, with the sum of the
    values of that key's rows. *)
Definition groups_of {A K : Type} (cmp : K -> K -> comparison)
    (key : A -> K) (val : A -> Q) (g : list (K * Q)) (rows : list A)
  : Prop :=
  NoDup (map fst g)
  /\ (forall k s, In (k, s) g ->
        s == q_sum (map val (keyed cmp key k rows))
        /\ exists r, In r rows /\ key r = k)
  /\ (forall r, In r rows -> In (key r) (map fst g)).

(** The transactions of a month, in finance_app.py. *)
Definition month_rows (st : FinanceApp.store) (yr mo : Z)
  : list FinanceApp.transaction :=
  filter (FinanceApp.in_month yr mo) (FinanceApp.transactions st).

Definition of_type_currency (ty currency : string)
    (t : FinanceApp.transaction) : bool :=
  String.eqb (FinanceApp.tx_type t) ty
  && String.eqb (FinanceApp.tx_currency t) currency.

Definition summary_key (s : FinanceApp.summary_row) : string * string :=
  (FinanceApp.sum_type s, FinanceApp.sum_currency s).

(** The transactions of a month, in server.py: those whose date text
    starts with the year, a dash and the two-digit month. *)
Definition server_month_rows (st : Server.store) (year month : Z)
  : list Server.transaction :=
  filter (Server.like_month (Py.str_of_int year ++ "-" ++ Py.fmt_02d month))
    (Server.transactions st).

Definition server_of_type (ty : string) (t : Server.transaction) : bool :=
  String.eqb (Server.tx_type t) ty.

Definition server_expense_in (k : string) (t : Server.transaction) : bool :=
  String.eqb (Server.tx_type t) "expense"
  && String.eqb (Server.tx_category t) k.

(** The columns of a rate row of server.py other than its id. *)
Definition server_rate_fields (r : Server.exchange_rate)
  : string * string * Q * string * string :=
  (Server.er_from r, Server.er_to r, Server.er_rate r, Server.er_date r,
   Server.er_source r).


(** The balance of an account before it is rounded. *)
Definition running_balance (st : FinanceApp.store) (acc : FinanceApp.account)
  : Q :=
  fold_left (FinanceApp.balance_step st (FinanceApp.acc_currency acc))
    (own_rows st acc) 0%Q.

(** *** The order of query results *)

(** [a] is listed before [b] under [ORDER BY date DESC, id DESC]. *)
Definition newer_first (a b : FinanceApp.transaction) : Prop :=
  text_lt (FinanceApp.tx_date b) (FinanceApp.tx_date a)
  \/ (FinanceApp.tx_date a = FinanceApp.tx_date b
      /\ (FinanceApp.tx_id b <= FinanceApp.tx_id a)%Z).

(** [a] is listed before [b] under [ORDER BY name]. *)
Definition name_le (a b : FinanceApp.account) : Prop :=
  text_le (FinanceApp.acc_name a) (FinanceApp.acc_name b).

(** [a] is listed before [b] under [ORDER BY date DESC]. *)
Definition rate_not_older (a b : FinanceApp.exchange_rate) : Prop :=
  text_le (FinanceApp.er_date b) (FinanceApp.er_date a).

(** *** Dates *)

(** A date of the calendar that [datetime.date] can hold and
    [%Y-%m-%d] can spell. *)
Definition valid_date (d : Py.date) : Prop :=
  (1 <= Py.year d <= 9999)%Z /\ (1 <= Py.month d <= 12)%Z
  /\ (1 <= Py.day d <= Py.days_in_month (Py.year d) (Py.month d))%Z.

(** The four characters of a year read back as the year, and read as a
    plain decimal they give the year as well. *)
Definition year_text_ok (y : Z) : bool :=
  match Py.chars (Py.fmt_04d y) with
  | [a; b; c; e] =>
      forallb Py.is_digit [a; b; c; e]
      && (Py.int_of_digits [a; b; c; e] =? y)%Z
      && match NilZero.int_of_string (Py.fmt_04d y) with
         | Some i => (Z.of_int i =? y)%Z
         | None => false
         end
      && Bool.eqb (String.eqb (Py.fmt_04d y) (Py.str_of_int y))
           (1000 <=? y)%Z
  | _ => false
  end.

(** The two characters of a month or day read back through [field]. *)
Definition two_digit_ok (field : list ascii -> option Z) (v : Z) : bool :=
  match Py.chars (Py.fmt_02d v) with
  | [a; b] =>
      Py.not_dash a && Py.not_dash b
      && match field [a; b] with
         | Some w => (w =? v)%Z
         | None => false
         end
      && match NilZero.int_of_string (Py.fmt_02d v) with
         | Some i => (Z.of_int i =? v)%Z
         | None => false
         end
      && (Ascii.eqb a "0" || (10 <=? v)%Z)
      && (negb (Ascii.eqb a "0")
          || String.eqb (Py.str_of_int v) (String b ""))
  | _ => false
  end.

(** Every stored transaction carries a calendar date in the form
    [isoformat] writes. *)
Definition dates_canonical (st : FinanceApp.store) : Prop :=
  forall t, In t (FinanceApp.transactions st) ->
    exists d, valid_date d /\ FinanceApp.tx_date t = Py.isoformat d.

(** A submission with the date spelled without leading zeros. *)
Definition short_date_form : FinanceApp.tx_form :=
  FinanceApp.mktx_form (Some (Py.JStr "2024-3-1")) (Some (Py.JStr " Income "))
    (Some "Salary") (Some (Py.JStr "12.5")) (Some (Py.JStr "usd")) None None.

(** * Properties *)

(** ** The Python built-ins on sample inputs *)
Example strptime_ok :
  option_map Py.isoformat (Py.strptime_ymd "2024-3-1") = Some "2024-03-01".
Proof. reflexivity. Qed.

Example strptime_bad : Py.strptime_ymd "2023-02-29" = None.
Proof. reflexivity. Qed.

Example float_ok : Py.float (Py.JStr " -12.50e1 ") = Some (-(1250 # 1) * (1 # 10))%Q.
Proof. vm_compute. reflexivity. Qed.

(** ** The order on date texts *)
Section TextOrder.

Lemma text_lt_trans a b c : text_lt a b -> text_lt b c -> text_lt a c.
Proof.
  unfold text_lt. intros H1 H2.
  apply String_as_OT.cmp_lt. apply String_as_OT.cmp_lt in H1, H2.
  eapply String_as_OT.lt_trans; eassumption.
Qed.

Lemma text_le_refl a : text_le a a.
Proof.
  unfold text_le. replace (String.compare a a) with Eq; [discriminate|].
  symmetry. apply String_as_OT.cmp_eq. reflexivity.
Qed.

Lemma text_lt_le a b : text_lt a b -> text_le a b.
Proof. unfold text_lt, text_le. intros ->. discriminate. Qed.

Lemma text_not_lt_le a b : String.compare a b <> Lt -> text_le b a.
Proof.
  unfold text_le. rewrite (String.compare_antisym b a).
  destruct (String.compare a b); simpl; congruence.
Qed.

Lemma text_le_cases a b : text_le a b -> text_lt a b \/ a = b.
Proof.
  unfold text_le, text_lt. destruct (String.compare a b) eqn:E.
  - right. apply String.compare_eq_iff. exact E.
  - left. reflexivity.
  - congruence.
Qed.

Lemma text_le_trans a b c : text_le a b -> text_le b c -> text_le a c.
Proof.
  intros H1 H2.
  destruct (text_le_cases _ _ H1) as [L1 | ->]; [|exact H2].
  destruct (text_le_cases _ _ H2) as [L2 | <-]; [|exact H1].
  apply text_lt_le. eapply text_lt_trans; eassumption.
Qed.

End TextOrder.

(** ** ORDER BY and LIMIT *)
Section SqlFacts.
Context {A : Type} (cmp : A -> A -> comparison).

Lemma insert_perm (x : A) (l : list A) :
  Permutation (x :: l) (Sql.insert cmp x l).
Proof.
  induction l as [|y r IH]; simpl.
  - apply Permutation_refl.
  - destruct (cmp y x); try apply Permutation_refl.
    eapply perm_trans; [apply perm_swap|].
    apply perm_skip. exact IH.
Qed.

Lemma order_by_perm (l : list A) : Permutation l (Sql.order_by cmp l).
Proof.
  induction l as [|x r IH]; simpl.
  - apply perm_nil.
  - eapply perm_trans; [apply perm_skip; exact IH|].
    apply insert_perm.
Qed.

Lemma order_by_length (l : list A) :
  List.length (Sql.order_by cmp l) = List.length l.
Proof. symmetry. apply Permutation_length, order_by_perm. Qed.

Lemma order_by_in (l : list A) (x : A) :
  In x (Sql.order_by cmp l) <-> In x l.
Proof.
  split; apply Permutation_in;
    [apply Permutation_sym|]; apply order_by_perm.
Qed.

(** The first row after sorting, read off the scan: the row that came
    first stays first unless a later one is strictly before it. *)
Lemma hd_order_by_cons (x : A) (l : list A) :
  hd_error (Sql.order_by cmp (x :: l)) =
  match hd_error (Sql.order_by cmp l) with
  | Some y => match cmp y x with Lt => Some y | _ => Some x end
  | None => Some x
  end.
Proof.
  simpl. destruct (Sql.order_by cmp l) as [|y r]; simpl.
  - reflexivity.
  - destruct (cmp y x); reflexivity.
Qed.

Lemma hd_order_by_none (l : list A) :
  hd_error (Sql.order_by cmp l) = None -> l = [].
Proof.
  intros H. pose proof (order_by_length l) as L.
  destruct (Sql.order_by cmp l); [|discriminate].
  destruct l; [reflexivity|discriminate].
Qed.

Lemma limit_length (n : Z) (l : list A) :
  (0 <= n)%Z ->
  List.length (Sql.limit n l) = Nat.min (Z.to_nat n) (List.length l).
Proof.
  intros Hn. unfold Sql.limit.
  destruct (Z.ltb_spec n 0); [lia|]. apply length_firstn.
Qed.

Lemma limit_one_hd (l : list A) : hd_error (Sql.limit 1 l) = hd_error l.
Proof. destruct l; reflexivity. Qed.

(** ORDER BY sorts, for a comparison that never answers [Lt] both ways. *)
Hypothesis cmp_asym : forall a b, cmp a b = Lt -> cmp b a <> Lt.

Lemma insert_sorted (x : A) (l : list A) :
  Sorted (in_order cmp) l -> Sorted (in_order cmp) (Sql.insert cmp x l).
Proof.
  induction l as [|y r IH]; intros S; cbn [Sql.insert].
  - repeat constructor.
  - destruct (cmp y x) eqn:E.
    + constructor; [exact S|]. constructor. unfold in_order. congruence.
    + inversion S as [|? ? S' H]; subst. constructor; [apply IH, S'|].
      destruct r as [|z r']; cbn [Sql.insert].
      * constructor. apply cmp_asym, E.
      * destruct (cmp z x); constructor;
          try (apply cmp_asym, E); inversion H; assumption.
    + constructor; [exact S|]. constructor. unfold in_order. congruence.
Qed.

Lemma order_by_sorted (l : list A) : Sorted (in_order cmp) (Sql.order_by cmp l).
Proof.
  induction l as [|x r IH]; cbn [Sql.order_by fold_right].
  - constructor.
  - apply insert_sorted, IH.
Qed.

Lemma firstn_sorted (R : A -> A -> Prop) (n : nat) (l : list A) :
  Sorted R l -> Sorted R (firstn n l).
Proof.
  revert l. induction n as [|n IH]; intros l S; [constructor|].
  destruct l as [|x l]; [constructor|]. cbn [firstn].
  inversion S as [|? ? S' H]; subst. constructor; [apply IH, S'|].
  destruct l as [|y l]; [rewrite firstn_nil; constructor|].
  destruct n; cbn [firstn]; constructor. inversion H; assumption.
Qed.

End SqlFacts.

(** ** The rate resolver *)
Section Resolver.
Import FinanceApp.

Lemma pair_is_true f t r :
  pair_is f t r = true <-> er_from r = f /\ er_to r = t.
Proof.
  unfold pair_is. rewrite andb_true_iff, !String.eqb_eq. tauto.
Qed.

(** Where the first row of [ORDER BY date DESC] sits in the scan: the
    rows before it are strictly older, the rows after it are not newer. *)
Lemma first_by_date_desc (l : list exchange_rate) (r : exchange_rate) :
  hd_error (Sql.order_by by_date_desc l) = Some r ->
  exists l1 l2, l = (l1 ++ r :: l2)%list
    /\ (forall r', In r' l1 -> text_lt (er_date r') (er_date r))
    /\ (forall r', In r' l2 -> text_le (er_date r') (er_date r)).
Proof.
  revert r. induction l as [|x rest IH]; intros r H.
  - discriminate H.
  - rewrite hd_order_by_cons in H.
    destruct (hd_error (Sql.order_by by_date_desc rest)) as [y|] eqn:E.
    + destruct (IH y eq_refl) as (l1 & l2 & -> & Hl1 & Hl2).
      unfold by_date_desc in H.
      destruct (String.compare (er_date x) (er_date y)) eqn:C.
      * injection H as <-. exists [], (l1 ++ y :: l2)%list.
        repeat split; [intros ? []|].
        assert (Hyx : text_le (er_date y) (er_date x))
          by (apply text_not_lt_le; congruence).
        intros r' Hin. apply in_app_or in Hin.
        destruct Hin as [Hin | [<- | Hin]]; [|exact Hyx|].
        -- eapply text_le_trans; [apply text_lt_le, Hl1, Hin|exact Hyx].
        -- eapply text_le_trans; [apply Hl2, Hin|exact Hyx].
      * injection H as <-. exists (x :: l1), l2.
        repeat split; [|exact Hl2].
        intros r' [<- | Hin]; [exact C|apply Hl1, Hin].
      * injection H as <-. exists [], (l1 ++ y :: l2)%list.
        repeat split; [intros ? []|].
        assert (Hyx : text_le (er_date y) (er_date x))
          by (apply text_not_lt_le; congruence).
        intros r' Hin. apply in_app_or in Hin.
        destruct Hin as [Hin | [<- | Hin]]; [|exact Hyx|].
        -- eapply text_le_trans; [apply text_lt_le, Hl1, Hin|exact Hyx].
        -- eapply text_le_trans; [apply Hl2, Hin|exact Hyx].
    + injection H as <-. apply hd_order_by_none in E. subst rest.
      exists [], []. repeat split; intros ? [].
Qed.

Lemma latest_row_scan tbl f t r :
  latest_row tbl f t = Some r ->
  exists l1 l2, filter (pair_is f t) tbl = (l1 ++ r :: l2)%list
    /\ (forall r', In r' l1 -> text_lt (er_date r') (er_date r))
    /\ (forall r', In r' l2 -> text_le (er_date r') (er_date r)).
Proof.
  unfold latest_row. rewrite limit_one_hd. apply first_by_date_desc.
Qed.

Lemma latest_row_most_recent tbl f t r :
  latest_row tbl f t = Some r -> most_recent tbl f t r.
Proof.
  intros H. destruct (latest_row_scan _ _ _ _ H) as (l1 & l2 & E & H1 & H2).
  assert (Hr : In r (filter (pair_is f t) tbl))
    by (rewrite E; apply in_elt).
  apply filter_In in Hr. destruct Hr as [Hin Hp].
  apply pair_is_true in Hp. destruct Hp as [Hf Ht].
  repeat split; try assumption.
  intros r' Hin' Hf' Ht'.
  assert (Hr' : In r' (filter (pair_is f t) tbl))
    by (apply filter_In; split; [assumption|apply pair_is_true; auto]).
  rewrite E in Hr'. apply in_app_or in Hr'.
  destruct Hr' as [Hr' | [<- | Hr']].
  - apply text_lt_le, H1, Hr'.
  - apply text_le_refl.
  - apply H2, Hr'.
Qed.

Lemma latest_row_none tbl f t :
  latest_row tbl f t = None -> ~ quoted tbl f t.
Proof.
  unfold latest_row. rewrite limit_one_hd. intros H (r & Hin & Hf & Ht).
  apply hd_order_by_none in H.
  assert (Hr : In r (filter (pair_is f t) tbl))
    by (apply filter_In; split; [assumption|apply pair_is_true; auto]).
  rewrite H in Hr. exact Hr.
Qed.

Lemma nonzero_true q : nonzero q = true <-> ~ q == 0.
Proof.
  unfold nonzero. rewrite negb_true_iff. split.
  - intros H E. apply Qeq_bool_iff in E. congruence.
  - intros H. destruct (Qeq_bool q 0) eqn:E; [|reflexivity].
    apply Qeq_bool_iff in E. contradiction.
Qed.

Lemma nonzero_false q : nonzero q = false <-> q == 0.
Proof.
  unfold nonzero. rewrite negb_false_iff. apply Qeq_bool_iff.
Qed.

(** Runs the lookups of a [Db] computation up to the next test. *)
Ltac run_lookup :=
  cbv beta iota zeta delta [bind select_latest ret option_map app].

(** The three stages of the resolver, each under the outcome of the
    lookups before it. *)
Lemma resolve_direct tbl f t r :
  String.eqb f t = false -> latest_row tbl f t = Some r ->
  get_latest_rate f t tbl = (er_rate r, [(f, t)]).
Proof.
  intros Hft H. unfold get_latest_rate. rewrite Hft.
  run_lookup. rewrite H. run_lookup. reflexivity.
Qed.

Lemma resolve_reverse tbl f t r :
  String.eqb f t = false -> latest_row tbl f t = None ->
  latest_row tbl t f = Some r -> nonzero (er_rate r) = true ->
  get_latest_rate f t tbl = ((1 / er_rate r)%Q, [(f, t); (t, f)]).
Proof.
  intros Hft Hd Hr Hnz. unfold get_latest_rate. rewrite Hft.
  run_lookup. rewrite Hd. run_lookup. rewrite Hr. run_lookup.
  rewrite Hnz. reflexivity.
Qed.

Lemma resolve_bridge tbl f t :
  String.eqb f t = false -> latest_row tbl f t = None ->
  no_reverse tbl f t ->
  get_latest_rate f t tbl =
  if (negb (f =? "USD") && negb (t =? "USD"))%bool
  then
    (match latest_row tbl f "USD", latest_row tbl "USD" t with
     | Some x, Some y =>
         if (nonzero (er_rate x) && nonzero (er_rate y))%bool
         then (er_rate x * er_rate y)%Q else 1%Q
     | _, _ => 1%Q
     end,
     [(f, t); (t, f); (f, "USD"); ("USD", t)])
  else (1%Q, [(f, t); (t, f)]).
Proof.
  intros Hft Hd Hrev. unfold get_latest_rate. rewrite Hft.
  unfold no_reverse in Hrev.
  run_lookup. rewrite Hd. run_lookup.
  destruct (latest_row tbl t f) as [rv|]; run_lookup.
  - apply nonzero_false in Hrev. rewrite Hrev.
    destruct (negb (f =? "USD") && negb (t =? "USD"))%bool; [|reflexivity].
    run_lookup.
    destruct (latest_row tbl f "USD") as [x|];
      destruct (latest_row tbl "USD" t) as [y|]; run_lookup;
      try reflexivity.
    destruct (nonzero (er_rate x) && nonzero (er_rate y))%bool; reflexivity.
  - destruct (negb (f =? "USD") && negb (t =? "USD"))%bool; [|reflexivity].
    run_lookup.
    destruct (latest_row tbl f "USD") as [x|];
      destruct (latest_row tbl "USD" t) as [y|]; run_lookup;
      try reflexivity.
    destruct (nonzero (er_rate x) && nonzero (er_rate y))%bool; reflexivity.
Qed.

(** C9. Resolving a currency to itself answers 1 and makes no lookup in
    the rate table, whatever the table holds (for every text, so for
    every supported currency). *)
Theorem get_latest_rate_same_currency :
  forall (tbl : list exchange_rate) (c : string),
    get_latest_rate c c tbl = (1%Q, []).
Proof.
  intros tbl c. unfold get_latest_rate.
  rewrite String.eqb_refl. reflexivity.
Qed.

(** C1. For two distinct currencies the resolver answers, in this order:
    the rate of the direct lookup when it finds a row; else the
    reciprocal of the rate of the reverse lookup when it finds a row with
    a nonzero rate; else, when neither currency is USD and the lookups
    from -> USD and USD -> to both find nonzero rates, their product;
    else 1.  Each lookup finds a row exactly when the pair is quoted,
    and then a most recent one; the lookups are made in that order. *)
Theorem get_latest_rate_strict_order :
  forall (st : store) (f t : string),
    String.eqb f t = false ->
    let tbl := exchange_rates st in
    let resolve := latest_rate st f t in
    (forall r, latest_row tbl f t = Some r -> resolve = er_rate r)
    /\ (latest_row tbl f t = None ->
        forall r, latest_row tbl t f = Some r -> ~ er_rate r == 0 ->
                  resolve = (1 / er_rate r)%Q)
    /\ (latest_row tbl f t = None -> no_reverse tbl f t ->
        f <> "USD" -> t <> "USD" ->
        forall x y,
          latest_row tbl f "USD" = Some x -> latest_row tbl "USD" t = Some y ->
          ~ er_rate x == 0 -> ~ er_rate y == 0 ->
          resolve = (er_rate x * er_rate y)%Q)
    /\ (latest_row tbl f t = None -> no_reverse tbl f t ->
        (f = "USD" \/ t = "USD"
         \/ match latest_row tbl f "USD", latest_row tbl "USD" t with
            | Some x, Some y => er_rate x == 0 \/ er_rate y == 0
            | _, _ => True
            end) ->
        resolve = 1%Q)
    /\ (forall a b,
          match latest_row tbl a b with
          | Some r => most_recent tbl a b r
          | None => ~ quoted tbl a b
          end)
    /\ (exists n, (1 <= n)%nat /\
          snd (get_latest_rate f t tbl) =
          firstn n [(f, t); (t, f); (f, "USD"); ("USD", t)]).
Proof.
  intros st f t Hft tbl resolve. subst resolve. unfold latest_rate. fold tbl.
  split; [|split; [|split; [|split; [|split]]]].
  - intros r H. rewrite (resolve_direct _ _ _ _ Hft H). reflexivity.
  - intros Hd r Hr Hnz. apply nonzero_true in Hnz.
    rewrite (resolve_reverse _ _ _ _ Hft Hd Hr Hnz). reflexivity.
  - intros Hd Hrev Hf Ht x y Hx Hy Nx Ny.
    apply nonzero_true in Nx, Ny.
    apply String.eqb_neq in Hf, Ht.
    rewrite (resolve_bridge _ _ _ Hft Hd Hrev).
    rewrite Hf, Ht, Hx, Hy, Nx, Ny. reflexivity.
  - intros Hd Hrev Hcase.
    rewrite (resolve_bridge _ _ _ Hft Hd Hrev).
    destruct (String.eqb_spec f "USD") as [Hf | Hf]; [reflexivity|].
    destruct (String.eqb_spec t "USD") as [Ht | Ht]; [reflexivity|].
    destruct Hcase as [? | [? | Hcase]]; try contradiction.
    destruct (latest_row tbl f "USD") as [x|]; [|reflexivity].
    destruct (latest_row tbl "USD" t) as [y|]; [|reflexivity].
    destruct Hcase as [Hz | Hz]; apply nonzero_false in Hz; rewrite Hz;
      simpl; [|rewrite andb_false_r]; reflexivity.
  - intros a b. destruct (latest_row tbl a b) eqn:E.
    + apply latest_row_most_recent, E.
    + apply latest_row_none, E.
  - destruct (latest_row tbl f t) as [d|] eqn:Hd.
    { exists 1%nat. split; [lia|].
      rewrite (resolve_direct _ _ _ _ Hft Hd). reflexivity. }
    destruct (latest_row tbl t f) as [rv|] eqn:Hr.
    + destruct (nonzero (er_rate rv)) eqn:Hnz.
      * exists 2%nat. split; [lia|].
        rewrite (resolve_reverse _ _ _ _ Hft Hd Hr Hnz). reflexivity.
      * assert (Hrev : no_reverse tbl f t).
        { unfold no_reverse. rewrite Hr. apply nonzero_false, Hnz. }
        rewrite (resolve_bridge _ _ _ Hft Hd Hrev).
        destruct (negb (f =? "USD") && negb (t =? "USD"))%bool;
          [exists 4%nat|exists 2%nat]; (split; [lia|]).
        -- reflexivity.
        -- reflexivity.
    + assert (Hrev : no_reverse tbl f t).
      { unfold no_reverse. rewrite Hr. exact I. }
      rewrite (resolve_bridge _ _ _ Hft Hd Hrev).
      destruct (negb (f =? "USD") && negb (t =? "USD"))%bool;
        [exists 4%nat|exists 2%nat]; (split; [lia|]).
      * reflexivity.
      * reflexivity.
Qed.

(** Through USD: EUR -> CNY on a table that quotes EUR -> USD and
    USD -> CNY only. *)
Lemma get_latest_rate_strict_order_witness :
  String.eqb "EUR" "CNY" = false /\
  latest_rate bridge_store "EUR" "CNY" = ((11 # 10) * (72 # 10))%Q.
Proof.
  split; [reflexivity|].
  destruct (get_latest_rate_strict_order bridge_store "EUR" "CNY" eq_refl)
    as (_ & _ & H & _).
  refine (H eq_refl I _ _
            (mkrate 1 "EUR" "USD" (11 # 10) "2024-01-01" "manual")
            (mkrate 2 "USD" "CNY" (72 # 10) "2024-01-02" "manual")
            eq_refl eq_refl _ _);
    intro E; discriminate E.
Defined.

(** C8. On the day the default rates were seeded, a manual USD -> CNY
    rate of 7.3 is accepted and stored after the default 7.2 with the
    same date; the resolver still answers the earlier row's 7.2. *)
Theorem latest_rate_same_day_keeps_first :
  fst (api_add_rate "2024-06-01" (init_db "2024-06-01" empty_store)
         manual_rate_form) = Ok tt
  /\ filter (pair_is "USD" "CNY") (exchange_rates same_day_store) =
       [mkrate 1 "USD" "CNY" (72 # 10) "2024-06-01" "default";
        mkrate 7 "USD" "CNY" (73 # 10) "2024-06-01" "manual"]
  /\ latest_rate same_day_store "USD" "CNY" = (72 # 10)%Q.
Proof. repeat split. Qed.

End Resolver.

(** ** The balance of an account *)
Section Balance.
Import FinanceApp.


Lemma q_sum_cons (x : Q) (l : list Q) : q_sum (x :: l) = (x + q_sum l)%Q.
Proof. reflexivity. Qed.




End Balance.

(** ** The monthly report *)
Section Report.
Import FinanceApp.

Lemma fold_left_Qplus (l : list Q) (b : Q) :
  fold_left Qplus l b == b + q_sum l.
Proof.
  revert b. induction l as [|x l IH]; intros b; cbn [fold_left].
  - unfold q_sum; simpl. ring.
  - rewrite IH, q_sum_cons. ring.
Qed.

Lemma py_sum_q_sum (l : list Q) : py_sum l == q_sum l.
Proof. unfold py_sum. rewrite fold_left_Qplus. ring. Qed.

(** Adding an amount under a key adds it to the sum of the values. *)
Lemma dict_add_sum (d : dict) (k : string) (a : Q) :
  q_sum (dict_values (dict_set d k (dict_get d k 0 + a))) ==
  q_sum (dict_values d) + a.
Proof.
  induction d as [|[k' v] r IH]; cbn [dict_set dict_get].
  - unfold q_sum; simpl. ring.
  - destruct (String.eqb k' k); unfold dict_values; cbn [map snd];
      rewrite !q_sum_cons.
    + ring.
    + fold (dict_values r).
      fold (dict_values (dict_set r k (dict_get r k 0 + a))).
      rewrite IH. ring.
Qed.

Lemma dict_set_keys (d : dict) (k : string) (v : Q) :
  dict_keys (dict_set d k v) =
  if Py.str_in k (dict_keys d) then dict_keys d
  else (dict_keys d ++ [k])%list.
Proof.
  induction d as [|[k' v'] r IH].
  - reflexivity.
  - cbn [dict_set]. unfold dict_keys, Py.str_in in *.
    cbn [map fst existsb]. rewrite (String.eqb_sym k k').
    destruct (String.eqb k' k); cbn [orb map fst].
    + reflexivity.
    + rewrite IH.
      destruct (existsb (String.eqb k) (map fst r)); reflexivity.
Qed.

Lemma dict_set_NoDup (d : dict) (k : string) (v : Q) :
  NoDup (dict_keys d) -> NoDup (dict_keys (dict_set d k v)).
Proof.
  intros H. rewrite dict_set_keys.
  destruct (Py.str_in k (dict_keys d)) eqn:E; [exact H|].
  apply NoDup_app; [exact H|repeat constructor; intros []|].
  intros x Hx [<- | []].
  unfold Py.str_in in E.
  assert (existsb (String.eqb k) (dict_keys d) = true).
  { apply existsb_exists. exists k. split; [exact Hx|apply String.eqb_refl]. }
  congruence.
Qed.

(** What the loop over the transactions leaves in the two breakdowns. *)
Lemma by_category_loop (txs : list tx_row) (e i : dict) :
  let r := fold_left by_category_step txs (e, i) in
  q_sum (dict_values (fst r)) ==
    q_sum (dict_values e) + q_sum (row_amounts (filter row_is_expense txs))
  /\ q_sum (dict_values (snd r)) ==
    q_sum (dict_values i)
    + q_sum (row_amounts (filter (fun t => negb (row_is_expense t)) txs))
  /\ (NoDup (dict_keys e) -> NoDup (dict_keys (fst r)))
  /\ (NoDup (dict_keys i) -> NoDup (dict_keys (snd r))).
Proof.
  revert e i. induction txs as [|t txs IH]; intros e i; cbn zeta.
  - cbn [fold_left filter fst snd].
    repeat split; auto; unfold row_amounts, q_sum; cbn [map fold_right]; ring.
  - cbn [fold_left filter]. unfold by_category_step at 2 4 6 8.
    change (String.eqb (tx_type (row_tx t)) "expense") with (row_is_expense t).
    destruct (row_is_expense t); cbn [negb].
    + destruct (IH (dict_set e (tx_category (row_tx t))
                      (dict_get e (tx_category (row_tx t)) 0
                       + tx_amount (row_tx t))) i) as (H1 & H2 & H3 & H4).
      repeat split.
      * rewrite H1, dict_add_sum. unfold row_amounts. cbn [map].
        rewrite q_sum_cons. ring.
      * exact H2.
      * intros N. apply H3, dict_set_NoDup, N.
      * exact H4.
    + destruct (IH e (dict_set i (tx_category (row_tx t))
                        (dict_get i (tx_category (row_tx t)) 0
                         + tx_amount (row_tx t)))) as (H1 & H2 & H3 & H4).
      repeat split.
      * exact H1.
      * rewrite H2, dict_add_sum. unfold row_amounts. cbn [map].
        rewrite q_sum_cons. ring.
      * exact H3.
      * intros N. apply H4, dict_set_NoDup, N.
Qed.

(** Whatever the list of transactions, the report's net is its income
    total minus its expense total, the expense breakdown adds up to the
    expense total, the other breakdown adds up to the amounts of all the
    rows that are not expenses, and each breakdown has one entry per
    category. *)
Lemma monthly_report_sums (year month : Z) (txs : list tx_row) :
  let r := monthly_report_of year month txs in
  net r = (income_total r - expense_total r)%Q
  /\ q_sum (dict_values (expense_by_category r)) == expense_total r
  /\ q_sum (dict_values (income_by_category r)) ==
     q_sum (row_amounts (filter (fun t => negb (row_is_expense t)) txs))
  /\ NoDup (dict_keys (expense_by_category r))
  /\ NoDup (dict_keys (income_by_category r)).
Proof.
  unfold monthly_report_of.
  pose proof (by_category_loop txs empty_dict empty_dict) as H.
  cbv zeta in H.
  destruct (fold_left by_category_step txs (empty_dict, empty_dict)) as [e i].
  destruct H as (H1 & H2 & H3 & H4).
  cbn [fst snd] in *. cbn zeta.
  cbn [net income_total expense_total expense_by_category income_by_category].
  repeat split.
  - rewrite H1, py_sum_q_sum.
    unfold q_sum at 1, empty_dict; cbn [dict_values map fold_right].
    unfold amounts_of_type, row_amounts, row_is_expense. ring.
  - rewrite H2.
    unfold q_sum at 1, empty_dict; cbn [dict_values map fold_right]. ring.
  - apply H3. constructor.
  - apply H4. constructor.
Qed.

Lemma non_expense_amounts (txs : list tx_row) :
  q_sum (row_amounts (filter (fun t => negb (row_is_expense t)) txs)) ==
  q_sum (amounts_of_type "income" txs)
  + q_sum (row_amounts
             (filter (fun t => negb (row_is_expense t) && negb (row_is_income t))
                txs)).
Proof.
  induction txs as [|t txs IH].
  - unfold q_sum; simpl. ring.
  - unfold amounts_of_type in *. cbn [filter].
    change (String.eqb (tx_type (row_tx t)) "income") with (row_is_income t).
    destruct (row_is_expense t) eqn:Ee; destruct (row_is_income t) eqn:Ei;
      cbn [negb andb]; unfold row_amounts in *; cbn [map];
      rewrite ?q_sum_cons, IH; try ring.
    unfold row_is_expense, row_is_income in *.
    apply String.eqb_eq in Ee, Ei. congruence.
Qed.

(** When every row of the month is an income or an expense, the income
    breakdown adds up to the income total. *)
Lemma income_breakdown_without_transfers (year month : Z) (txs : list tx_row) :
  (forall t, In t txs -> row_is_expense t = true \/ row_is_income t = true) ->
  let r := monthly_report_of year month txs in
  q_sum (dict_values (income_by_category r)) == income_total r.
Proof.
  intros Hty r.
  destruct (monthly_report_sums year month txs) as (_ & _ & H & _).
  fold r in H. rewrite H, non_expense_amounts.
  assert (E : filter (fun t => negb (row_is_expense t) && negb (row_is_income t))
                txs = []).
  { clear -Hty. induction txs as [|t txs IH]; [reflexivity|].
    cbn [filter]. destruct (Hty t (or_introl eq_refl)) as [-> | ->];
      cbn [negb andb]; rewrite ?andb_false_r;
      apply IH; intros; apply Hty; right; assumption. }
  rewrite E. subst r. unfold monthly_report_of.
  destruct (fold_left by_category_step txs (empty_dict, empty_dict)) as [e i].
  cbn [income_total]. rewrite py_sum_q_sum.
  unfold row_amounts, q_sum at 2; cbn [map fold_right]. ring.
Qed.

(** C2. A transfer of 100 booked for March 2024 through the POST handler
    appears in the report's income breakdown while the income total
    stays 0, so the values of [income_by_category] add up to 100, not to
    [income_total]; the net and the expense side are as specified.  In
    server.py the same branch also overwrites: an income of 5 and a
    transfer of 7 in one category leave 7 under that category against an
    income total of 5. *)
Theorem monthly_report_transfer_in_income_breakdown :
  let r := api_monthly_report transfer_store 2024 3 in
  map (fun t => tx_type (row_tx t)) (rep_transactions r) = ["transfer"]
  /\ income_total r = 0%Q /\ expense_total r = 0%Q /\ net r = 0%Q
  /\ expense_by_category r = []
  /\ income_by_category r = [("Savings", 100%Q)]
  /\ ~ q_sum (dict_values (income_by_category r)) == income_total r
  /\ (let r' := Server.handle_get_monthly_report server_transfer_store 2024 3 in
      Server.income_total r' = 5%Q
      /\ Server.income_by_category r' = [("Misc", 7%Q)]).
Proof.
  cbv zeta. repeat split; try (vm_compute; reflexivity).
  vm_compute. discriminate.
Qed.

Lemma by_date_desc_id_desc_asym (a b : transaction) :
  by_date_desc_id_desc a b = Lt -> by_date_desc_id_desc b a <> Lt.
Proof.
  unfold by_date_desc_id_desc.
  rewrite (String.compare_antisym (tx_date a) (tx_date b)).
  rewrite (Z.compare_antisym (tx_id b) (tx_id a)).
  destruct (String.compare (tx_date b) (tx_date a)); cbn [CompOpp];
    [|intros _ H; discriminate H|intros H; discriminate H].
  destruct (Z.compare (tx_id b) (tx_id a)); cbn [CompOpp];
    intros H H'; congruence.
Qed.

Lemma map_row_tx_join accs (l : list transaction) :
  map row_tx (map (join_account accs) l) = l.
Proof.
  induction l as [|t l IH]; [reflexivity|]. cbn [map]. rewrite IH.
  reflexivity.
Qed.

Lemma get_transactions_month st (year month : Z) :
  year <> 0%Z -> month <> 0%Z ->
  get_transactions st 10000 None (Some year) (Some month) =
  map (join_account (accounts st))
    (firstn (Z.to_nat 10000)
       (Sql.order_by by_date_desc_id_desc
          (filter (in_month year month) (transactions st)))).
Proof.
  intros Hy Hm. unfold get_transactions. f_equal.
  unfold Sql.limit. cbn [Z.ltb Z.compare]. f_equal. f_equal.
  apply filter_ext. intros t. unfold where_clause, int_truthy.
  apply Z.eqb_neq in Hy, Hm. rewrite Hy, Hm. reflexivity.
Qed.



End Report.

(** ** The refresh of the exchange rates *)
Section Refresh.
Import FinanceApp.

Lemma insert_fetched_appends today rates cs :
  forall tbl n tbl' n',
    insert_fetched today rates cs tbl n = Some (tbl', n') ->
    exists new, tbl' = (tbl ++ new)%list
      /\ Forall (fetched_row today cs) new
      /\ n' = (n + List.length new)%nat.
Proof.
  induction cs as [|c cs IH]; intros tbl n tbl' n' H; cbn [insert_fetched] in H.
  - injection H as <- <-. exists []. rewrite app_nil_r.
    repeat split; [constructor|cbn [List.length]; lia].
  - assert (Hweak : forall new, Forall (fetched_row today cs) new ->
                                Forall (fetched_row today (c :: cs)) new).
    { intros new. apply Forall_impl. intros r (H1 & H2 & H3).
      repeat split; try tauto. right. exact H2. }
    destruct (doc_get rates c) as [v|].
    + destruct (String.eqb_spec c "USD") as [Hc | Hc]; cbn [negb] in H.
      * destruct (IH _ _ _ _ H) as (new & -> & Hnew & ->).
        exists new. repeat split. apply Hweak, Hnew.
      * destruct (Py.float v) as [rate|]; [|discriminate H].
        destruct (IH _ _ _ _ H) as (new & -> & Hnew & ->).
        unfold insert_rate. rewrite <- app_assoc.
        eexists. split; [reflexivity|]. split.
        -- cbn [app]. constructor; [|apply Hweak, Hnew].
           repeat split; cbn; auto.
        -- cbn [List.length app]. lia.
    + destruct (IH _ _ _ _ H) as (new & -> & Hnew & ->).
      exists new. repeat split. apply Hweak, Hnew.
Qed.

(** C4, for server.py.  The refresh of server.py does not keep the rows
    it finds: after a second refresh the table is not the old table
    followed by new rows. *)
Lemma server_refresh_replaces_rows :
  ~ exists new,
      Server.exchange_rates
        (Server.handle_update_rates "2024-01-02" server_refreshed)
      = (Server.exchange_rates server_refreshed ++ new)%list.
Proof.
  intros [new H]. vm_compute in H. discriminate H.
Qed.

(** C4, for finance_app.py.  The refresh of finance_app.py touches the rate
    table only by appending: when it succeeds the new table is the old
    one followed by the rows it wrote (USD to a supported currency other
    than USD, dated today, source [api]); when it fails, be it before
    the rates are read or on a rate that cannot be converted, the store
    is exactly as it was.  Accounts and transactions are never touched.
    The refresh of server.py empties the table first: what it leaves is
    its six built-in rates and nothing of what was stored. *)
Theorem update_rates_appends_only :
  (forall today fetched st,
     let r := update_rates today fetched st in
     (fst r = true ->
      exists new,
        exchange_rates (snd r) = (exchange_rates st ++ new)%list
        /\ Forall (fetched_row today CURRENCIES) new)
     /\ (fst r = false -> snd r = st)
     /\ accounts (snd r) = accounts st
     /\ transactions (snd r) = transactions st)
  /\ update_rates "2024-05-01" None same_day_store = (false, same_day_store)
  /\ update_rates "2024-05-01" (Some malformed_doc) same_day_store
     = (false, same_day_store)
  /\ (forall today st,
        map (fun r => (Server.er_from r, Server.er_to r, Server.er_rate r,
                       Server.er_date r, Server.er_source r))
          (Server.exchange_rates (Server.handle_update_rates today st))
        = map (fun '(f, t, rate) => (f, t, rate, today, "api"))
            Server.rates_data).
Proof.
  split; [|split; [|split]].
  - intros today fetched st r. subst r. unfold update_rates.
    destruct fetched as [rates|]; [|repeat split; discriminate].
    destruct (insert_fetched today rates CURRENCIES (exchange_rates st) 0)
      as [[tbl n]|] eqn:E; [|repeat split; discriminate].
    destruct (insert_fetched_appends _ _ _ _ _ _ _ E) as (new & -> & Hnew & _).
    repeat split; try discriminate.
    intros _. exists new. split; [reflexivity|exact Hnew].
  - reflexivity.
  - reflexivity.
  - intros today st. reflexivity.
Qed.

(** A refresh that succeeds on the store of the same-day rates. *)
Lemma update_rates_appends_only_witness :
  fst (update_rates "2024-06-02" (Some fetched_doc) same_day_store) = true
  /\ exists new,
       exchange_rates
         (snd (update_rates "2024-06-02" (Some fetched_doc) same_day_store))
       = (exchange_rates same_day_store ++ new)%list
       /\ List.length new = 2.
Proof.
  split; [reflexivity|].
  destruct update_rates_appends_only as (H & _).
  destruct (H "2024-06-02" (Some fetched_doc) same_day_store) as (Hs & _).
  destruct (Hs eq_refl) as (new & E & _). exists new. split; [exact E|].
  apply (f_equal (@List.length _)) in E. rewrite length_app in E.
  change (9 = 7 + List.length new) in E. lia.
Defined.

End Refresh.

(** ** Ingestion *)
Section Ingestion.
Import FinanceApp.

Lemma max_rowid_ge (ids : list Z) :
  (0 <= fold_right Z.max 0 ids)%Z
  /\ forall x, In x ids -> (x <= fold_right Z.max 0 ids)%Z.
Proof.
  induction ids as [|y ids [IH0 IH]]; cbn [fold_right].
  - split; [lia|intros ? []].
  - split; [lia|]. intros x [<- | Hx]; [lia|].
    specialize (IH x Hx). lia.
Qed.


Lemma next_rowid_fresh (ids : list Z) (x : Z) :
  In x ids -> (x < Sql.next_rowid ids)%Z.
Proof.
  intros H. unfold Sql.next_rowid.
  destruct (max_rowid_ge ids) as [_ M]. specialize (M x H). lia.
Qed.

Lemma and_then_ok {A B : Type} (m : response A) (k : A -> response B) (b : B) :
  and_then m k = Ok b -> exists a, m = Ok a /\ k a = Ok b.
Proof.
  destruct m as [a| |]; cbn [and_then]; intros H; try discriminate H.
  exists a. split; [reflexivity|exact H].
Qed.

Lemma positive_number_ok (x : option Py.json) (error : string) (v : Q) :
  positive_number x error = Ok v <->
  exists j, x = Some j /\ Py.float j = Some v /\ (0 < v)%Q.
Proof.
  unfold positive_number. split.
  - destruct x as [j|]; [|discriminate].
    destruct (Py.float j) as [w|] eqn:F; [|discriminate].
    destruct (Qle_bool w 0) eqn:E; [discriminate|].
    intros [= <-]. exists j. split; [reflexivity|]. split; [exact F|].
    apply Qnot_le_lt. intros L. apply Qle_bool_iff in L. congruence.
  - intros (j & -> & -> & L).
    destruct (Qle_bool v 0) eqn:E; [|reflexivity].
    apply Qle_bool_iff in E. exfalso. exact (Qlt_not_le _ _ L E).
Qed.


(** What a submission that passed the checks looked like, read off the
    row to insert. *)
Lemma checked_transaction_ok st data t :
  checked_transaction st data = Ok t ->
  exists d,
    date_ok data d /\ tx_date t = Py.isoformat d
    /\ type_ok data (tx_type t)
    /\ amount_ok data (tx_amount t)
    /\ currency_is data (tx_currency t) /\ supported (tx_currency t)
    /\ booked_on st data (tx_account_id t)
    /\ tx_category t = category_of data /\ tx_note t = note_of data.
Proof.
  unfold checked_transaction. fold (missing_field data).
  destruct (missing_field data) as [fld|] eqn:M; [discriminate|].
  intros H.
  apply and_then_ok in H. destruct H as (d & Hd & H).
  apply and_then_ok in H. destruct H as (ty & Hty & H).
  destruct (Py.str_in ty ALLOWED_TYPES) eqn:Hin; cbn [negb] in H;
    [|discriminate H].
  apply and_then_ok in H. destruct H as (a & Ha & H).
  apply and_then_ok in H. destruct H as (c & Hc & H).
  apply and_then_ok in Hc. destruct Hc as (cs & Hcs & [= <-]).
  destruct (Py.str_in (Py.upper cs) CURRENCIES) eqn:Hsup; cbn [negb] in H;
    [|discriminate H].
  apply and_then_ok in H. destruct H as (account_id & Hacc & [= <-]).
  cbn [tx_date tx_type tx_amount tx_currency tx_account_id tx_category tx_note].
  apply positive_number_ok in Ha. destruct Ha as (j & Hj & Hf & Hpos).
  exists d.
  split; [split; assumption|]. split; [reflexivity|].
  split; [split; [|exact Hin]|].
  { destruct (f_type data) as [[| | |s]|] eqn:Ety; try discriminate Hty.
    injection Hty as <-. exists s. split; [exact Ety|reflexivity]. }
  split; [split; [exists j; split; assumption|exact Hpos]|].
  split; [exists cs; split; [assumption|reflexivity]|].
  split; [exact Hsup|].
  split; [|split; reflexivity].
  - unfold booked_on.
    destruct (int_truthy (f_account_id data)) eqn:T.
    + left. split; [reflexivity|].
      destruct (f_account_id data) as [z|] eqn:Eacc; [|discriminate T].
      injection Hacc as <-. reflexivity.
    + right. split; [reflexivity|].
      destruct (accounts st) as [|first_account rest] eqn:Eaccs;
        [discriminate Hacc|].
      injection Hacc as <-. exists first_account, rest. split; reflexivity.
Qed.















Lemma sorted_snoc (l : list Z) (y : Z) :
  StronglySorted Z.lt l -> (forall x, In x l -> (x < y)%Z) ->
  StronglySorted Z.lt (l ++ [y]).
Proof.
  induction l as [|x l IH]; intros S H; cbn [app].
  - repeat constructor.
  - inversion S as [|? ? S' F]; subst. constructor.
    + apply IH; [exact S'|]. intros z Hz. apply H. right. exact Hz.
    + apply Forall_app. split; [exact F|].
      repeat constructor. apply H. left. reflexivity.
Qed.





End Ingestion.

(** ** The handlers on sample submissions *)
Section Samples.
Import FinanceApp.

(** Only the first failing check is reported. *)
Example all_wrong_reports_date :
  api_add_transaction seeded_store all_wrong_form
  = (Err400 "Date must be in YYYY-MM-DD format", seeded_store).
Proof. reflexivity. Qed.

Example empty_body_reports_date_key :
  api_add_transaction seeded_store
    (mktx_form None None None None None None None)
  = (Err400 "date is required", seeded_store).
Proof. reflexivity. Qed.

Example unsupported_currency_reported_upper_case :
  fst (api_add_transaction seeded_store
         (mktx_form (Some (Py.JStr "2024-3-1")) (Some (Py.JStr " Income "))
            (Some "Salary") (Some (Py.JStr "12.5")) (Some (Py.JStr "chf"))
            None None))
  = Err400 "Unsupported currency: CHF".
Proof. reflexivity. Qed.

Example type_that_is_no_text_is_a_500 :
  fst (api_add_transaction seeded_store
         (mktx_form (Some (Py.JStr "2024-03-01")) (Some (Py.JNum 5))
            (Some "Salary") (Some (Py.JNum 1)) (Some (Py.JStr "CNY"))
            None None))
  = Err500.
Proof. reflexivity. Qed.

(** An expense of 50 CNY for food on 1 March 2024, on the seeded store. *)
Example march_report_scenario :
  let r := api_monthly_report
             (snd (api_add_transaction seeded_store plain_form)) 2024 3 in
  expense_total r = 50%Q /\ income_total r = 0%Q /\ net r == -50
  /\ expense_by_category r = [("Food", 50%Q)]
  /\ income_by_category r = [] /\ transaction_count r = 1.
Proof. cbv zeta. repeat split. Qed.

End Samples.

(** * Further properties of the code *)

(** ** Dates: parsing, storing, filtering by month *)
Section Dates.
Import FinanceApp.

Lemma in_firstn {A : Type} (n : nat) (l : list A) (x : A) :
  In x (firstn n l) -> In x l.
Proof.
  intros H. rewrite <- (firstn_skipn n l). apply in_or_app. left. exact H.
Qed.

Lemma in_limit {A : Type} (n : Z) (l : list A) (x : A) :
  In x (Sql.limit n l) -> In x l.
Proof.
  unfold Sql.limit. destruct (n <? 0)%Z; [auto|apply in_firstn].
Qed.

Ltac split_andb :=
  repeat match goal with
         | H : (_ && _)%bool = true |- _ => apply andb_prop in H; destruct H
         end.

Lemma range_check (P : Z -> bool) (lo n : nat) :
  forallb P (map Z.of_nat (seq lo n)) = true ->
  forall z, (Z.of_nat lo <= z < Z.of_nat (lo + n))%Z -> P z = true.
Proof.
  intros H z Hz. rewrite forallb_forall in H. apply H.
  apply in_map_iff. exists (Z.to_nat z). split; [lia|].
  apply in_seq. lia.
Qed.

Lemma year_text (y : Z) : (1 <= y <= 9999)%Z -> year_text_ok y = true.
Proof.
  intros H. apply (range_check year_text_ok 1 (Z.to_nat 9999)).
  - vm_compute. reflexivity.
  - lia.
Qed.

Lemma month_text (m : Z) :
  (1 <= m <= 12)%Z -> two_digit_ok Py.month_field m = true.
Proof.
  intros H. apply (range_check (two_digit_ok Py.month_field) 1 12).
  - vm_compute. reflexivity.
  - lia.
Qed.

Lemma day_text (d : Z) :
  (1 <= d <= 31)%Z -> two_digit_ok Py.day_field d = true.
Proof.
  intros H. apply (range_check (two_digit_ok Py.day_field) 1 31).
  - vm_compute. reflexivity.
  - lia.
Qed.

Lemma chars_app (s1 s2 : string) :
  Py.chars (s1 ++ s2) = (Py.chars s1 ++ Py.chars s2)%list.
Proof.
  unfold Py.chars. induction s1 as [|c s1 IH]; cbn; [reflexivity|].
  rewrite IH. reflexivity.
Qed.

Lemma days_in_month_le_31 (y m : Z) : (28 <= Py.days_in_month y m <= 31)%Z.
Proof.
  unfold Py.days_in_month.
  repeat match goal with
         | |- context [match ?x with _ => _ end] => destruct x
         end; lia.
Qed.

(** Formatting a valid date and parsing it gives the date back. *)
Lemma strptime_isoformat (d : Py.date) :
  valid_date d -> Py.strptime_ymd (Py.isoformat d) = Some d.
Proof.
  destruct d as [y m dd]. unfold valid_date. cbn [Py.year Py.month Py.day].
  intros (Hy & Hm & Hd).
  pose proof (days_in_month_le_31 y m) as Hdm.
  pose proof (year_text y Hy) as Ty.
  pose proof (month_text m Hm) as Tm.
  pose proof (day_text dd ltac:(lia)) as Td.
  unfold Py.strptime_ymd, Py.isoformat. cbn [Py.year Py.month Py.day].
  rewrite !chars_app.
  unfold year_text_ok in Ty. unfold two_digit_ok in Tm, Td.
  destruct (Py.chars (Py.fmt_04d y)) as [|a [|b [|c [|e [|? ?]]]]];
    try discriminate Ty.
  destruct (Py.chars (Py.fmt_02d m)) as [|ma [|mb [|? ?]]];
    try discriminate Tm.
  destruct (Py.chars (Py.fmt_02d dd)) as [|da [|db [|? ?]]];
    try discriminate Td.
  split_andb.
  change (Py.chars "-") with ["-"%char]. cbn [app].
  match goal with H : forallb Py.is_digit _ = true |- _ => rewrite H end.
  cbn [andb Ascii.eqb Bool.eqb]. cbn [Py.span].
  repeat match goal with H : Py.not_dash _ = true |- _ => rewrite H end.
  cbn [Py.not_dash Ascii.eqb Bool.eqb negb].
  destruct (Py.month_field [ma; mb]) as [m'|]; [|discriminate].
  destruct (Py.day_field [da; db]) as [d'|]; [|discriminate].
  repeat match goal with
         | H : (_ =? _)%Z = true |- _ => apply Z.eqb_eq in H
         end.
  subst m' d'.
  match goal with H : Py.int_of_digits _ = y |- _ => rewrite H end.
  replace (1 <=? y)%Z with true by (symmetry; apply Z.leb_le; lia).
  replace (dd <=? Py.days_in_month y m)%Z with true
    by (symmetry; apply Z.leb_le; lia).
  reflexivity.
Qed.

Lemma date_of_text_isoformat (d : Py.date) :
  valid_date d -> Sql.date_of_text (Py.isoformat d) = Some d.
Proof.
  intros H. unfold Sql.date_of_text. rewrite (strptime_isoformat d H).
  rewrite String.eqb_refl. reflexivity.
Qed.

Lemma digit_range (c : ascii) :
  Py.is_digit c = true -> (0 <= Py.digit_val c <= 9)%Z.
Proof.
  unfold Py.is_digit, Py.digit_val. intros H. split_andb.
  repeat match goal with
         | H : (_ <=? _)%nat = true |- _ => apply Nat.leb_le in H
         end.
  lia.
Qed.

Lemma nonzero_digit (c : ascii) :
  Py.is_digit c && negb (Ascii.eqb c "0") = true ->
  (1 <= Py.digit_val c <= 9)%Z.
Proof.
  intros H. split_andb. pose proof (digit_range c ltac:(assumption)) as R.
  assert (Py.digit_val c <> 0%Z); [|lia].
  intros E. unfold Py.digit_val, Py.is_digit, Py.code in *. split_andb.
  repeat match goal with
         | H : (_ <=? _)%nat = true |- _ => apply Nat.leb_le in H
         end.
  assert (N : nat_of_ascii c = 48%nat) by lia.
  apply (f_equal ascii_of_nat) in N. rewrite ascii_nat_embedding in N.
  subst c. discriminate.
Qed.

Lemma month_field_range (l : list ascii) (m : Z) :
  Py.month_field l = Some m -> (1 <= m <= 12)%Z.
Proof.
  unfold Py.month_field.
  destruct l as [|a [|b [|? ?]]]; try discriminate.
  - destruct (Py.is_digit a && negb (Ascii.eqb a "0")) eqn:E;
      [|discriminate].
    intros [= <-]. pose proof (nonzero_digit a E). lia.
  - destruct (Py.is_digit a && Py.is_digit b); [|discriminate].
    destruct ((1 <=? Py.int_of_digits [a; b])%Z
              && (Py.int_of_digits [a; b] <=? 12)%Z) eqn:E; [|discriminate].
    intros [= <-]. split_andb.
    repeat match goal with
           | H : (_ <=? _)%Z = true |- _ => apply Z.leb_le in H
           end.
    lia.
Qed.

Lemma day_field_positive (l : list ascii) (d : Z) :
  Py.day_field l = Some d -> (1 <= d)%Z.
Proof.
  unfold Py.day_field.
  destruct l as [|a [|b [|? ?]]]; try discriminate.
  - destruct (Py.is_digit a && negb (Ascii.eqb a "0")) eqn:E;
      [|discriminate].
    intros [= <-]. pose proof (nonzero_digit a E). lia.
  - destruct (Ascii.eqb a " ").
    + destruct (Py.is_digit b && negb (Ascii.eqb b "0")) eqn:E;
        [|discriminate].
      intros [= <-]. pose proof (nonzero_digit b E). lia.
    + destruct (Py.is_digit a && Py.is_digit b); [|discriminate].
      destruct ((1 <=? Py.int_of_digits [a; b])%Z
                && (Py.int_of_digits [a; b] <=? 31)%Z) eqn:E;
        [|discriminate].
      intros [= <-]. split_andb.
      repeat match goal with
             | H : (_ <=? _)%Z = true |- _ => apply Z.leb_le in H
             end.
      lia.
Qed.

(** What [strptime] accepts is a date of the calendar. *)
Lemma strptime_valid (s : string) (d : Py.date) :
  Py.strptime_ymd s = Some d -> valid_date d.
Proof.
  unfold Py.strptime_ymd.
  destruct (Py.chars s) as [|y1 [|y2 [|y3 [|y4 [|dash rest]]]]];
    try discriminate.
  destruct (forallb Py.is_digit [y1; y2; y3; y4] && Ascii.eqb dash "-")
    eqn:E; [|discriminate].
  destruct (Py.span Py.not_dash rest) as [ms [|? ds]]; [discriminate|].
  destruct (Py.month_field ms) as [m|] eqn:Em; [|discriminate].
  destruct (Py.day_field ds) as [dd|] eqn:Ed; [|discriminate].
  destruct ((1 <=? Py.int_of_digits [y1; y2; y3; y4])%Z
            && (dd <=? Py.days_in_month
                         (Py.int_of_digits [y1; y2; y3; y4]) m)%Z)
    eqn:Ec; [|discriminate].
  intros [= <-]. unfold valid_date. cbn [Py.year Py.month Py.day].
  apply month_field_range in Em. apply day_field_positive in Ed.
  split_andb. cbn [forallb] in *. split_andb.
  repeat match goal with
         | H : (_ <=? _)%Z = true |- _ => apply Z.leb_le in H
         | H : Py.is_digit _ = true |- _ => apply digit_range in H
         end.
  unfold Py.int_of_digits in *. cbn [fold_left] in *. lia.
Qed.

(** [str(n)] reads back as [n]. *)
Lemma str_of_int_parse (n : Z) :
  NilZero.int_of_string (Py.str_of_int n) = Some (Z.to_int n).
Proof.
  unfold Py.str_of_int. apply NilZero.isi; intros E;
    pose proof (f_equal Z.of_int E) as E'; rewrite DecimalZ.of_to in E';
    cbn in E'; subst n; discriminate E.
Qed.

Lemma str_of_int_eq (n : Z) (s : string) (i : Decimal.int) :
  Py.str_of_int n = s -> NilZero.int_of_string s = Some i -> n = Z.of_int i.
Proof.
  intros <- H. rewrite str_of_int_parse in H. injection H as <-.
  symmetry. apply DecimalZ.of_to.
Qed.

Lemma str_of_int_inj (a b : Z) : Py.str_of_int a = Py.str_of_int b -> a = b.
Proof.
  intros H. rewrite (str_of_int_eq a _ _ H (str_of_int_parse b)).
  apply DecimalZ.of_to.
Qed.

(** The year test of the month filter: [strftime('%Y', date) = str(year)]. *)
Lemma year_filter (y Y : Z) :
  (1 <= y <= 9999)%Z ->
  String.eqb (Py.fmt_04d y) (Py.str_of_int Y) = true <->
  (1000 <= y)%Z /\ Y = y.
Proof.
  intros Hy. pose proof (year_text y Hy) as T. unfold year_text_ok in T.
  destruct (Py.chars (Py.fmt_04d y)) as [|a [|b [|c [|e [|? ?]]]]];
    try discriminate T.
  split_andb.
  destruct (NilZero.int_of_string (Py.fmt_04d y)) as [i|] eqn:P;
    [|discriminate].
  match goal with H : (Z.of_int i =? y)%Z = true |- _ =>
    apply Z.eqb_eq in H; rename H into Hi end.
  match goal with H : Bool.eqb _ _ = true |- _ =>
    apply Bool.eqb_prop in H; rename H into Hb end.
  split.
  - intros E. apply String.eqb_eq in E. symmetry in E.
    pose proof (str_of_int_eq Y _ _ E P) as HY. rewrite Hi in HY. subst Y.
    split; [|reflexivity]. apply Z.leb_le. rewrite <- Hb.
    apply String.eqb_eq. symmetry. exact E.
  - intros [H1000 ->]. rewrite Hb. apply Z.leb_le. exact H1000.
Qed.

(** The month test: [strftime('%m', date) = f"{int(month):02d}"]. *)
Lemma month_filter (m M : Z) :
  (1 <= m <= 12)%Z ->
  String.eqb (Py.fmt_02d m) (Py.fmt_02d M) = true <-> M = m.
Proof.
  intros Hm. split; [|intros ->; apply String.eqb_refl].
  intros E. apply String.eqb_eq in E.
  pose proof (month_text m Hm) as T. unfold two_digit_ok in T.
  destruct (Py.chars (Py.fmt_02d m)) as [|a [|b [|? ?]]] eqn:C;
    try discriminate T.
  assert (S : Py.fmt_02d m = String a (String b "")).
  { unfold Py.chars in C. rewrite <- (string_of_list_ascii_of_string (Py.fmt_02d m)).
    rewrite C. reflexivity. }
  split_andb.
  destruct (NilZero.int_of_string (Py.fmt_02d m)) as [i|] eqn:P;
    [|discriminate].
  match goal with H : (Z.of_int i =? m)%Z = true |- _ =>
    apply Z.eqb_eq in H; rename H into Hi end.
  unfold Py.fmt_02d in E at 2.
  destruct (String.length (Py.str_of_int M) <? 2)%nat.
  - destruct (M <? 0)%Z.
    + symmetry in E. rewrite (str_of_int_eq M _ _ E P). exact Hi.
    + rewrite S in E. cbn in E. injection E as Ea Eb.
      match goal with H : (negb _ || _)%bool = true |- _ =>
        rename H into Hs end.
      subst a. cbn in Hs. apply String.eqb_eq in Hs.
      apply str_of_int_inj. congruence.
  - symmetry in E. rewrite (str_of_int_eq M _ _ E P). exact Hi.
Qed.

(** The month filter on a stored date: it keeps the row exactly for the
    month and year of the date, and for no request at all when the year
    has fewer than four digits. *)
Lemma in_month_stored (t : transaction) (d : Py.date) (Y M : Z) :
  valid_date d -> tx_date t = Py.isoformat d ->
  in_month Y M t = true <->
  (1000 <= Py.year d)%Z /\ Y = Py.year d /\ M = Py.month d.
Proof.
  intros V E. unfold in_month, Sql.strftime_Y, Sql.strftime_m.
  rewrite E, (date_of_text_isoformat d V). cbn [option_map Sql.text_eq].
  destruct V as (Vy & Vm & _).
  rewrite andb_true_iff, (year_filter _ Y Vy), (month_filter _ M Vm).
  tauto.
Qed.

Lemma parse_iso_date_ok (x : option Py.json) (d : Py.date) :
  parse_iso_date x = Ok d <->
  exists s, x = Some (Py.JStr s) /\ Py.strptime_ymd s = Some d.
Proof.
  unfold parse_iso_date. split.
  - destruct x as [[| | |s]|]; try discriminate.
    destruct (Py.strptime_ymd s) as [d'|] eqn:E; [|discriminate].
    intros [= <-]. exists s. split; [reflexivity|exact E].
  - intros (s & -> & ->). reflexivity.
Qed.



Lemma accepted_transaction_is_normalised_aux st data id st' :
  api_add_transaction st data = (Ok id, st') ->
  exists row d,
    transactions st' = (transactions st ++ [row])%list
    /\ tx_id row = id /\ date_ok data d /\ valid_date d
    /\ tx_date row = Py.isoformat d
    /\ (forall t, In t (transactions st) -> (tx_id t < id)%Z).
Proof.
  intros H. unfold api_add_transaction in H.
  destruct (checked_transaction st data) as [t| |] eqn:E; try discriminate H.
  apply checked_transaction_ok in E.
  destruct E as (d & Hd & Hdate & _).
  unfold insert_transaction in H. injection H as <- <-.
  eexists. exists d. cbn [transactions tx_id tx_date].
  split; [reflexivity|]. split; [reflexivity|]. split; [exact Hd|].
  split; [|split; [exact Hdate|]].
  - destruct Hd as [_ Hd]. apply parse_iso_date_ok in Hd.
    destruct Hd as (s & _ & Hs). exact (strptime_valid s d Hs).
  - intros t' Ht'. apply next_rowid_fresh, in_map, Ht'.
Qed.

Lemma api_add_transaction_dates_canonical st data :
  dates_canonical st ->
  dates_canonical (snd (api_add_transaction st data)).
Proof.
  intros H. destruct (api_add_transaction st data) as [[id| |] st'] eqn:E;
    cbn [snd].
  - destruct (accepted_transaction_is_normalised_aux _ _ _ _ E)
      as (row & d & Est & _ & _ & V & Hd & _).
    intros t Ht. rewrite Est in Ht.
    apply in_app_or in Ht. destruct Ht as [Ht | [<- | []]].
    + apply H, Ht.
    + exists d. split; assumption.
  - unfold api_add_transaction in E.
    destruct (checked_transaction st data) as [t| |]; try discriminate E.
    injection E as _ <-. exact H.
  - unfold api_add_transaction in E.
    destruct (checked_transaction st data) as [t| |]; try discriminate E.
    injection E as <-. exact H.
Qed.

(** X2. On a store filled through [api_add_transaction] the month filter
    of [get_transactions] has calendar-month semantics for years of four
    digits: with a nonzero year and month it returns rows of that year
    and month only, and without a limit all of them.  A row dated before
    the year 1000 is returned for no year and month at all, because
    [str(year)] carries no leading zeros. *)
Theorem get_transactions_month_filter :
  forall st limit Y M,
    dates_canonical st -> Y <> 0%Z -> M <> 0%Z ->
    (forall r, In r (get_transactions st limit None (Some Y) (Some M)) ->
       In (row_tx r) (transactions st)
       /\ exists d, tx_date (row_tx r) = Py.isoformat d /\ valid_date d
                    /\ Py.year d = Y /\ Py.month d = M /\ (1000 <= Y)%Z)
    /\ (forall t d,
          In t (transactions st) -> tx_date t = Py.isoformat d ->
          valid_date d ->
          (In (join_account (accounts st) t)
              (get_transactions st (-1) None (Some Y) (Some M))
           <-> (1000 <= Py.year d)%Z /\ Y = Py.year d /\ M = Py.month d)).
Proof.
  intros st limit Y M Hc HY HM.
  assert (W : forall t, where_clause None (Some Y) (Some M) t = in_month Y M t).
  { intros t. unfold where_clause, int_truthy.
    apply Z.eqb_neq in HY, HM. rewrite HY, HM. reflexivity. }
  split.
  - intros r Hr. unfold get_transactions in Hr.
    apply in_map_iff in Hr. destruct Hr as (t & <- & Ht).
    cbn [row_tx join_account].
    assert (Ht' : In t (filter (where_clause None (Some Y) (Some M))
                          (transactions st))).
    { apply (order_by_in by_date_desc_id_desc).
      eapply in_limit; eassumption. }
    apply filter_In in Ht'. destruct Ht' as [Hin Hw]. rewrite W in Hw.
    split; [exact Hin|].
    destruct (Hc t Hin) as (d & V & E). exists d.
    apply (in_month_stored t d Y M V E) in Hw.
    destruct Hw as (H1 & -> & ->). repeat split; try assumption; apply V.
  - intros t d Hin E V. unfold get_transactions, Sql.limit.
    cbn [Z.ltb Z.compare]. rewrite <- (in_month_stored t d Y M V E).
    rewrite <- W. split.
    + intros H. apply in_map_iff in H. destruct H as (t' & Ej & Ht').
      assert (t' = t) by (unfold join_account in Ej; congruence). subst t'.
      apply order_by_in, filter_In in Ht'. apply Ht'.
    + intros H. apply in_map. apply order_by_in, filter_In.
      split; assumption.
Qed.

(** An income dated 1 March 0987, on a store with that one row. *)
Lemma get_transactions_month_filter_witness :
  let st := mkstore [] [mktransaction 1 "0987-03-01" "income" "Tithe" 1
                          "CNY" 1 ""] [] in
  dates_canonical st
  /\ get_transactions st (-1) None (Some 987%Z) (Some 3%Z) = [].
Proof.
  cbv zeta.
  assert (C : dates_canonical
                (mkstore [] [mktransaction 1 "0987-03-01" "income" "Tithe" 1
                               "CNY" 1 ""] [])).
  { intros t [<- | []]. exists (Py.mkdate 987 3 1).
    split; [|reflexivity]. unfold valid_date. cbn. lia. }
  split; [exact C|].
  destruct (get_transactions_month_filter _ (-1) 987 3 C) as [H _];
    [lia|lia|].
  destruct (get_transactions _ (-1) None (Some 987%Z) (Some 3%Z))
    as [|r l]; [reflexivity|].
  destruct (H r (or_introl eq_refl)) as (_ & d & _ & _ & _ & _ & Hbad). lia.
Defined.

(** X3. A transaction accepted for a date in a year of four digits shows
    in the monthly report of that year and month, as long as the month
    holds fewer than 10000 rows, and in the report of no other nonzero
    year and month. *)
Theorem accepted_transaction_is_reported :
  forall st data id st' d,
    api_add_transaction st data = (Ok id, st') ->
    date_ok data d -> (1000 <= Py.year d)%Z ->
    (List.length (filter (in_month (Py.year d) (Py.month d))
                    (transactions st)) < Z.to_nat 10000)%nat ->
    (exists r,
       In r (rep_transactions
               (api_monthly_report st' (Py.year d) (Py.month d)))
       /\ tx_id (row_tx r) = id)
    /\ (forall Y M r,
          Y <> 0%Z -> M <> 0%Z -> (Y, M) <> (Py.year d, Py.month d) ->
          In r (rep_transactions (api_monthly_report st' Y M)) ->
          tx_id (row_tx r) <> id).
Proof.
  intros st data id st' d H Hd H1000 Hlen.
  destruct (accepted_transaction_is_normalised_aux _ _ _ _ H)
    as (row & d' & Est & Eid & Hd' & V & Edate & Hfresh).
  assert (d' = d).
  { destruct Hd as [_ Hd]. destruct Hd' as [_ Hd']. congruence. }
  subst d'.
  assert (R : forall Y M, Y <> 0%Z -> M <> 0%Z ->
            rep_transactions (api_monthly_report st' Y M) =
            map (join_account (accounts st'))
              (firstn (Z.to_nat 10000)
                 (Sql.order_by by_date_desc_id_desc
                    (filter (in_month Y M) (transactions st ++ [row]))))).
  { intros Y M HY HM. unfold api_monthly_report.
    rewrite (get_transactions_month st' Y M HY HM), Est.
    unfold monthly_report_of.
    destruct (fold_left by_category_step _ (empty_dict, empty_dict));
      reflexivity. }
  assert (Hy0 : Py.year d <> 0%Z) by lia.
  assert (Hm0 : Py.month d <> 0%Z) by (destruct V as (_ & ? & _); lia).
  split.
  - exists (join_account (accounts st') row). split; [|exact Eid].
    rewrite (R _ _ Hy0 Hm0). apply in_map.
    rewrite firstn_all2.
    + apply order_by_in, filter_In. split; [apply in_elt|].
      apply (in_month_stored row d _ _ V Edate). auto.
    + rewrite order_by_length, filter_app, length_app.
      cbn [filter]. destruct (in_month (Py.year d) (Py.month d) row);
        cbn [List.length]; lia.
  - intros Y M r HY HM Hne Hr Hid. rewrite (R _ _ HY HM) in Hr.
    apply in_map_iff in Hr. destruct Hr as (t & <- & Ht).
    cbn [row_tx join_account] in Hid.
    apply in_firstn, order_by_in, filter_In in Ht. destruct Ht as [Hin Hm].
    apply in_app_or in Hin. destruct Hin as [Hin | [<- | []]].
    + specialize (Hfresh t Hin). lia.
    + apply (in_month_stored row d _ _ V Edate) in Hm.
      destruct Hm as (_ & -> & ->). congruence.
Qed.

(** The income of 1 March 2024 is in the report of March 2024. *)
Lemma accepted_transaction_is_reported_witness :
  exists r,
    In r (rep_transactions
            (api_monthly_report
               (snd (api_add_transaction seeded_store short_date_form))
               2024 3))
    /\ tx_id (row_tx r) = 1%Z.
Proof.
  refine (proj1 (accepted_transaction_is_reported seeded_store short_date_form
                   1%Z _ (Py.mkdate 2024 3 1) eq_refl _ _ _)).
  - split; reflexivity.
  - cbn; lia.
  - cbn; lia.
Defined.

End Dates.

(** ** The read queries *)
Section Queries.
Import FinanceApp.

Lemma sorted_weaken {A : Type} (R R' : A -> A -> Prop) (l : list A) :
  (forall a b, R a b -> R' a b) -> Sorted R l -> Sorted R' l.
Proof.
  intros W S. induction S as [|a l S IH H]; constructor; [exact IH|].
  destruct H; constructor. apply W. assumption.
Qed.

Lemma in_order_newer_first (a b : transaction) :
  in_order by_date_desc_id_desc a b -> newer_first a b.
Proof.
  unfold in_order, by_date_desc_id_desc, newer_first, text_lt.
  rewrite (String.compare_antisym (tx_date b) (tx_date a)).
  destruct (String.compare (tx_date a) (tx_date b)) eqn:C; cbn [CompOpp].
  - apply String.compare_eq_iff in C. intros H. right. split; [exact C|].
    apply Z.compare_ge_iff. exact H.
  - intros H. congruence.
  - intros _. left. reflexivity.
Qed.

Lemma by_name_asym (a b : account) : by_name a b = Lt -> by_name b a <> Lt.
Proof.
  unfold by_name. rewrite (String.compare_antisym (acc_name b) (acc_name a)).
  destruct (String.compare (acc_name a) (acc_name b)); cbn; congruence.
Qed.

Lemma by_date_desc_asym (a b : exchange_rate) :
  by_date_desc a b = Lt -> by_date_desc b a <> Lt.
Proof.
  unfold by_date_desc.
  rewrite (String.compare_antisym (er_date a) (er_date b)).
  destruct (String.compare (er_date b) (er_date a)); cbn; congruence.
Qed.

Lemma limit_prefix {A : Type} (n : Z) (l : list A) :
  (0 <= n)%Z -> Sql.limit n l = firstn (Z.to_nat n) (Sql.limit (-1) l).
Proof.
  intros H. unfold Sql.limit. destruct (Z.ltb_spec n 0); [lia|reflexivity].
Qed.

Lemma limit_sorted {A : Type} (R : A -> A -> Prop) (n : Z) (l : list A) :
  Sorted R l -> Sorted R (Sql.limit n l).
Proof.
  intros S. unfold Sql.limit. destruct (n <? 0)%Z; [exact S|].
  apply firstn_sorted, S.
Qed.

(** X4. [get_transactions] returns rows of the table that pass its
    filters, newest date first and, within a date, highest id first; a
    limit that is not negative keeps the first rows of that list and a
    negative one keeps them all.  An account id of 0 filters nothing,
    and a year without a month (or a zero year or month) filters
    nothing either. *)
Theorem get_transactions_result :
  forall st limit account_id year month,
    let rows := map row_tx (get_transactions st limit account_id year month) in
    Sorted newer_first rows
    /\ (forall t, In t rows ->
          In t (transactions st)
          /\ where_clause account_id year month t = true)
    /\ (forall a t, account_id = Some a -> a <> 0%Z -> In t rows ->
          tx_account_id t = a)
    /\ ((0 <= limit)%Z ->
        (List.length rows <= Z.to_nat limit)%nat
        /\ get_transactions st limit account_id year month
           = firstn (Z.to_nat limit)
               (get_transactions st (-1) account_id year month))
    /\ ((limit < 0)%Z ->
        Permutation rows
          (filter (where_clause account_id year month) (transactions st)))
    /\ get_transactions st limit (Some 0%Z) year month
       = get_transactions st limit None year month
    /\ get_transactions st limit account_id year None
       = get_transactions st limit account_id None None
    /\ get_transactions st limit account_id None month
       = get_transactions st limit account_id None None
    /\ get_transactions st limit account_id (Some 0%Z) month
       = get_transactions st limit account_id None None
    /\ get_transactions st limit account_id year (Some 0%Z)
       = get_transactions st limit account_id None None.
Proof.
  intros st limit account_id year month rows. subst rows.
  unfold get_transactions. rewrite map_row_tx_join.
  split; [|split; [|split; [|split; [|split]]]].
  - apply limit_sorted.
    apply (sorted_weaken (in_order by_date_desc_id_desc));
      [apply in_order_newer_first|].
    apply order_by_sorted, by_date_desc_id_desc_asym.
  - intros t Ht. apply in_limit, order_by_in, filter_In in Ht. exact Ht.
  - intros a t -> Ha Ht. apply in_limit, order_by_in, filter_In in Ht.
    destruct Ht as [_ Hw]. unfold where_clause, int_truthy in Hw.
    apply Z.eqb_neq in Ha. rewrite Ha in Hw. cbn [negb] in Hw.
    apply andb_prop in Hw. destruct Hw as [Hw _].
    apply Z.eqb_eq. exact Hw.
  - intros H. split.
    + unfold Sql.limit. destruct (Z.ltb_spec limit 0); [lia|].
      apply firstn_le_length.
    + rewrite (limit_prefix limit _ H). symmetry. apply firstn_map.
  - intros H. unfold Sql.limit. apply Z.ltb_lt in H. rewrite H.
    apply Permutation_sym, order_by_perm.
  - repeat split; f_equal; f_equal; f_equal; apply filter_ext; intros t;
      unfold where_clause, int_truthy; cbn [Z.eqb negb andb];
      try reflexivity;
      destruct year as [y|]; try reflexivity;
      destruct (negb (y =? 0)%Z); reflexivity.
Qed.

(** X5. [get_accounts] lists every account of the table once, in the
    order of the names. *)
Theorem get_accounts_result :
  forall st,
    Permutation (accounts st) (get_accounts st)
    /\ Sorted name_le (get_accounts st)
    /\ (forall st' data a,
          api_add_account st data = (Ok a, st') ->
          In a (get_accounts st')
          /\ List.length (get_accounts st')
             = S (List.length (get_accounts st))).
Proof.
  intros st. unfold get_accounts. split; [apply order_by_perm|]. split.
  - apply (sorted_weaken (in_order by_name)).
    + intros a b H. unfold in_order, by_name in H. unfold name_le.
      apply text_not_lt_le. exact H.
    + apply order_by_sorted, by_name_asym.
  - intros st' data a H. rewrite !order_by_length.
    unfold api_add_account in H.
    destruct (name <-? (s <-? str_or (af_name data) "" ;; Ok (Py.strip s)) ;;
              currency <-? (s <-? str_or (af_currency data) "CNY" ;;
                            Ok (Py.upper s)) ;;
              if String.eqb name "" then Err400 "Account name is required"
              else if negb (Py.str_in currency CURRENCIES)
              then Err400 ("Unsupported currency: " ++ currency)
              else Ok (name, currency)) as [[name currency]| |];
      try discriminate H.
    unfold insert_account in H. injection H as <- <-.
    cbn [accounts]. rewrite length_app. cbn [List.length].
    split; [apply order_by_in, in_elt|lia].
Qed.

(** X6. [get_exchange_rates] returns rows of the rate table, latest date
    first; a limit that is not negative keeps the first rows of that
    list. *)
Theorem get_exchange_rates_result :
  forall st limit,
    Sorted rate_not_older (get_exchange_rates st limit)
    /\ (forall r, In r (get_exchange_rates st limit) ->
          In r (exchange_rates st))
    /\ ((0 <= limit)%Z ->
        List.length (get_exchange_rates st limit)
        = Nat.min (Z.to_nat limit) (List.length (exchange_rates st))
        /\ get_exchange_rates st limit
           = firstn (Z.to_nat limit) (get_exchange_rates st (-1)))
    /\ Permutation (exchange_rates st) (get_exchange_rates st (-1)).
Proof.
  intros st limit. unfold get_exchange_rates.
  split; [|split; [|split]].
  - apply limit_sorted. apply (sorted_weaken (in_order by_date_desc)).
    + intros a b H. unfold in_order, by_date_desc in H.
      unfold rate_not_older. apply text_not_lt_le. exact H.
    + apply order_by_sorted, by_date_desc_asym.
  - intros r Hr. apply in_limit, order_by_in in Hr. exact Hr.
  - intros H. split; [|apply limit_prefix, H].
    rewrite limit_length by exact H. rewrite order_by_length. reflexivity.
  - apply order_by_perm.
Qed.

End Queries.

(** ** Accounts, manual rates and the first start *)
Section Writes.
Import FinanceApp.

Lemma rowid_order_unique (l : list account) (a b : account) :
  StronglySorted Z.lt (map acc_id l) ->
  In a l -> In b l -> acc_id a = acc_id b -> a = b.
Proof.
  induction l as [|x l IH]; intros S Ha Hb E; [destruct Ha|].
  cbn [map] in S. inversion S as [|? ? S' F]; subst.
  rewrite Forall_forall in F.
  destruct Ha as [<- | Ha]; destruct Hb as [<- | Hb]; auto.
  - specialize (F (acc_id b) (in_map acc_id _ _ Hb)). lia.
  - specialize (F (acc_id a) (in_map acc_id _ _ Ha)). lia.
Qed.

(** X7. In a row that [get_transactions] returns, the account name is
    the name of the account with the transaction's account id, and it is
    missing exactly when the table holds no account with that id. *)
Theorem joined_account_name :
  forall st t,
    accounts_in_rowid_order st ->
    (forall n,
       account_name (join_account (accounts st) t) = Some n <->
       exists a, In a (accounts st) /\ acc_id a = tx_account_id t
                 /\ acc_name a = n)
    /\ (account_name (join_account (accounts st) t) = None <->
        ~ exists a, In a (accounts st) /\ acc_id a = tx_account_id t).
Proof.
  intros st t S. unfold join_account. cbn [account_name].
  destruct (find (fun a => (acc_id a =? tx_account_id t)%Z) (accounts st))
    as [a0|] eqn:F; cbn [option_map].
  - apply find_some in F. destruct F as [Hin He]. apply Z.eqb_eq in He.
    split.
    + intros n. split.
      * intros [= <-]. exists a0. auto.
      * intros (a & Ha & Hid & <-).
        rewrite (rowid_order_unique _ a a0 S Ha Hin) by congruence.
        reflexivity.
    + split; [discriminate|]. intros H. exfalso. apply H. exists a0. auto.
  - split.
    + intros n. split; [discriminate|]. intros (a & Ha & Hid & _).
      pose proof (find_none _ _ F a Ha) as N. cbn in N.
      apply Z.eqb_neq in N. contradiction.
    + split; [|reflexivity]. intros _ (a & Ha & Hid).
      pose proof (find_none _ _ F a Ha) as N. cbn in N.
      apply Z.eqb_neq in N. contradiction.
Qed.

(** The seeded store has no account 999: an expense booked on it has no
    account name. *)
Lemma joined_account_name_witness :
  accounts_in_rowid_order seeded_store
  /\ account_name
       (join_account (accounts seeded_store)
          (mktransaction 1 "2024-03-01" "expense" "Food" 50 "CNY" 999 ""))
     = None.
Proof.
  assert (S : accounts_in_rowid_order seeded_store)
    by (repeat constructor).
  split; [exact S|].
  apply (proj2 (joined_account_name seeded_store
                  (mktransaction 1 "2024-03-01" "expense" "Food" 50 "CNY"
                     999 "")
                  S)).
  intros (a & Ha & Hid). vm_compute in Ha.
  destruct Ha as [<- | []]. discriminate Hid.
Defined.

Lemma account_checks st data :
  api_add_account st data =
  match str_or (af_name data) "" with
  | Ok n =>
      match str_or (af_currency data) "CNY" with
      | Ok c =>
          if String.eqb (Py.strip n) ""
          then (Err400 "Account name is required", st)
          else if negb (Py.str_in (Py.upper c) CURRENCIES)
          then (Err400 ("Unsupported currency: " ++ Py.upper c), st)
          else
            let a := mkaccount (Sql.next_rowid (map acc_id (accounts st)))
                       (Py.strip n) (Py.upper c) in
            (Ok a, mkstore (accounts st ++ [a]) (transactions st)
                     (exchange_rates st))
      | Err400 e => (Err400 e, st)
      | Err500 => (Err500, st)
      end
  | Err400 e => (Err400 e, st)
  | Err500 => (Err500, st)
  end.
Proof.
  unfold api_add_account.
  destruct (str_or (af_name data) "") as [n| |]; cbn [and_then];
    try reflexivity.
  destruct (str_or (af_currency data) "CNY") as [c| |]; cbn [and_then];
    try reflexivity.
  destruct (String.eqb (Py.strip n) ""); [reflexivity|].
  destruct (negb (Py.str_in (Py.upper c) CURRENCIES)); reflexivity.
Qed.



End Writes.

(** ** Manual rates and the refresh, as the resolver sees them *)
Section Rates.
Import FinanceApp.

Lemma text_lt_not_le a b : text_lt a b -> ~ text_le b a.
Proof.
  unfold text_lt, text_le. intros H N. apply N.
  rewrite String.compare_antisym, H. reflexivity.
Qed.

(** The row that [ORDER BY date DESC LIMIT 1] returns is fixed by the
    scan: it is the first row of the latest date. *)
Lemma first_max_unique (l1 l2 l1' l2' : list exchange_rate) r r' :
  (l1 ++ r :: l2 = l1' ++ r' :: l2')%list ->
  (forall x, In x l1 -> text_lt (er_date x) (er_date r)) ->
  (forall x, In x l2 -> text_le (er_date x) (er_date r)) ->
  (forall x, In x l1' -> text_lt (er_date x) (er_date r')) ->
  (forall x, In x l2' -> text_le (er_date x) (er_date r')) ->
  r = r'.
Proof.
  revert l1'. induction l1 as [|x l1 IH]; intros [|y l1'] E H1 H2 H1' H2';
    cbn [app] in E.
  - congruence.
  - injection E as -> ->. exfalso.
    apply (text_lt_not_le (er_date y) (er_date r')).
    + apply H1'. left. reflexivity.
    + apply H2. apply in_elt.
  - injection E as <- <-. exfalso.
    apply (text_lt_not_le (er_date x) (er_date r)).
    + apply H1. left. reflexivity.
    + apply H2'. apply in_elt.
  - injection E as <- E. apply (IH l1' E).
    + intros z Hz. apply H1. right. exact Hz.
    + exact H2.
    + intros z Hz. apply H1'. right. exact Hz.
    + exact H2'.
Qed.

Lemma latest_row_first_max tbl f t l1 r l2 :
  filter (pair_is f t) tbl = (l1 ++ r :: l2)%list ->
  (forall x, In x l1 -> text_lt (er_date x) (er_date r)) ->
  (forall x, In x l2 -> text_le (er_date x) (er_date r)) ->
  latest_row tbl f t = Some r.
Proof.
  intros E H1 H2. destruct (latest_row tbl f t) as [r'|] eqn:L.
  - destruct (latest_row_scan _ _ _ _ L) as (l1' & l2' & E' & H1' & H2').
    rewrite E in E'. f_equal. symmetry.
    exact (first_max_unique _ _ _ _ _ _ E' H1 H2 H1' H2').
  - exfalso. apply (latest_row_none _ _ _ L).
    assert (Hr : In r (filter (pair_is f t) tbl))
      by (rewrite E; apply in_elt).
    apply filter_In in Hr. destruct Hr as [Hin Hp].
    apply pair_is_true in Hp. exists r. tauto.
Qed.

Lemma filter_none {A : Type} (p : A -> bool) (l : list A) :
  (forall x, In x l -> p x = false) -> filter p l = [].
Proof.
  induction l as [|x l IH]; intros H; [reflexivity|].
  cbn [filter]. rewrite (H x (or_introl eq_refl)).
  apply IH. intros y Hy. apply H. right. exact Hy.
Qed.

Lemma pair_is_false f t r :
  pair_is f t r = false <-> er_from r <> f \/ er_to r <> t.
Proof.
  unfold pair_is. rewrite andb_false_iff, !String.eqb_neq. tauto.
Qed.

Lemma supported_not_blank c : supported c -> c <> "".
Proof. intros H ->. discriminate H. Qed.

Lemma rate_checks today st data f t :
  rate_pair_is data f t ->
  api_add_rate today st data =
  if (String.eqb f "" || String.eqb t ""
      || match rf_rate data with
         | None | Some Py.JNull => true
         | _ => false
         end)%bool
  then (Err400 "All fields are required (from_currency, to_currency, rate)",
        st)
  else
    match positive_number (rf_rate data)
            "Invalid rate; must be positive number" with
    | Ok rate =>
        if (negb (Py.str_in f CURRENCIES)
            || negb (Py.str_in t CURRENCIES))%bool
        then (Err400 "Unsupported currency in from/to", st)
        else (Ok tt,
              mkstore (accounts st) (transactions st)
                (insert_rate (exchange_rates st) f t rate today "manual"))
    | Err400 e => (Err400 e, st)
    | Err500 => (Err500, st)
    end.
Proof.
  intros (sf & sto & Hf & Ht & -> & ->). unfold api_add_rate.
  rewrite Hf, Ht. cbn [and_then].
  destruct (_ || _ || _)%bool; [reflexivity|].
  destruct (positive_number _ _) as [rate| |]; cbn [and_then];
    try reflexivity.
  destruct (_ || _)%bool; reflexivity.
Qed.

Lemma rate_given_spec data :
  match rf_rate data with
  | None | Some Py.JNull => true
  | _ => false
  end = false <-> rate_given data.
Proof.
  unfold rate_given. split.
  - destruct (rf_rate data) as [j|]; [|discriminate].
    intros H. exists j. split; [reflexivity|].
    intros ->. discriminate H.
  - intros (j & -> & Hj). destruct j; congruence.
Qed.

Lemma rate_is_given data q : rate_is data q -> rate_given data.
Proof.
  intros (j & Hj & F & _). exists j. split; [exact Hj|].
  intros ->. discriminate F.
Qed.



Lemma latest_row_other_pair tbl r f t :
  er_from r <> f \/ er_to r <> t ->
  latest_row (tbl ++ [r]) f t = latest_row tbl f t.
Proof.
  intros H. unfold latest_row. rewrite filter_app. cbn [filter].
  apply pair_is_false in H. rewrite H, app_nil_r. reflexivity.
Qed.

Lemma latest_row_appended_newest tbl r :
  older_than tbl (er_from r) (er_to r) (er_date r) ->
  latest_row (tbl ++ [r]) (er_from r) (er_to r) = Some r.
Proof.
  intros H.
  apply (latest_row_first_max _ _ _ (filter (pair_is (er_from r) (er_to r)) tbl)
           r []).
  - rewrite filter_app. cbn [filter].
    replace (pair_is (er_from r) (er_to r) r) with true; [reflexivity|].
    symmetry. apply pair_is_true. split; reflexivity.
  - intros x Hx. apply filter_In in Hx. destruct Hx as [Hin Hp].
    apply pair_is_true in Hp. destruct Hp. apply H; assumption.
  - intros x [].
Qed.

Lemma latest_row_appended_not_newer tbl r r0 :
  latest_row tbl (er_from r) (er_to r) = Some r0 ->
  text_le (er_date r) (er_date r0) ->
  latest_row (tbl ++ [r]) (er_from r) (er_to r) = Some r0.
Proof.
  intros L H.
  destruct (latest_row_scan _ _ _ _ L) as (l1 & l2 & E & H1 & H2).
  apply (latest_row_first_max _ _ _ l1 r0 (l2 ++ [r])).
  - rewrite filter_app, E. cbn [filter].
    replace (pair_is (er_from r) (er_to r) r) with true
      by (symmetry; apply pair_is_true; split; reflexivity).
    rewrite <- app_assoc. reflexivity.
  - exact H1.
  - intros x Hx. apply in_app_or in Hx.
    destruct Hx as [Hx | [<- | []]]; [apply H2, Hx|exact H].
Qed.

(** X10. What a stored manual rate does to the resolver.  When every
    row of its pair is dated before today, the new rate is the one
    resolved for the pair.  When the pair has a row of today or later,
    the resolver keeps answering with the row it answered with before.
    The lookup of every other pair is unchanged. *)
Theorem manual_rate_and_resolver :
  forall today st data f t q,
    rate_pair_is data f t -> rate_is data q ->
    supported f -> supported t -> f <> t ->
    let st' := snd (api_add_rate today st data) in
    (older_than (exchange_rates st) f t today -> latest_rate st' f t = q)
    /\ (forall r0,
          latest_row (exchange_rates st) f t = Some r0 ->
          text_le today (er_date r0) ->
          latest_row (exchange_rates st') f t = Some r0
          /\ latest_rate st' f t = latest_rate st f t)
    /\ (forall f' t',
          f' <> f \/ t' <> t ->
          latest_row (exchange_rates st') f' t'
          = latest_row (exchange_rates st) f' t').
Proof.
  intros today st data f t q P R Sf St Hft st'.
  assert (E : exchange_rates st' =
              (exchange_rates st
               ++ [mkrate (Sql.next_rowid (map er_id (exchange_rates st)))
                     f t q today "manual"])%list).
  { subst st'. rewrite (rate_checks today st data f t P).
    pose proof (rate_is_given _ _ R) as G.
    pose proof (supported_not_blank _ Sf) as Hf.
    pose proof (supported_not_blank _ St) as Ht.
    apply String.eqb_neq in Hf, Ht. apply rate_given_spec in G.
    rewrite Hf, Ht, G. cbn [orb].
    replace (positive_number _ _) with (Ok q)
      by (symmetry; apply positive_number_ok; exact R).
    unfold supported in Sf, St. rewrite Sf, St. reflexivity. }
  set (r := mkrate (Sql.next_rowid (map er_id (exchange_rates st)))
              f t q today "manual") in E.
  apply String.eqb_neq in Hft.
  split; [|split].
  - intros O. unfold latest_rate. rewrite E.
    rewrite (resolve_direct _ f t r Hft); [reflexivity|].
    apply (latest_row_appended_newest (exchange_rates st) r). exact O.
  - intros r0 L H.
    assert (L' : latest_row (exchange_rates st') f t = Some r0).
    { rewrite E.
      apply (latest_row_appended_not_newer (exchange_rates st) r r0 L H). }
    split; [exact L'|]. unfold latest_rate.
    rewrite (resolve_direct _ f t r0 Hft L').
    rewrite (resolve_direct _ f t r0 Hft L). reflexivity.
  - intros f' t' H. rewrite E. apply latest_row_other_pair.
    subst r. cbn [er_from er_to].
    destruct H as [H | H]; [left|right]; congruence.
Qed.

(** A USD -> CNY rate of 7.3 entered in June over the defaults of
    January is the rate resolved afterwards. *)
Lemma manual_rate_and_resolver_witness :
  rate_pair_is manual_rate_form "USD" "CNY"
  /\ rate_is manual_rate_form (73 # 10)
  /\ older_than (exchange_rates january_store) "USD" "CNY" "2024-06-01"
  /\ latest_rate
       (snd (api_add_rate "2024-06-01" january_store manual_rate_form))
       "USD" "CNY" = (73 # 10)%Q.
Proof.
  assert (P : rate_pair_is manual_rate_form "USD" "CNY")
    by (exists "USD", "CNY"; repeat split).
  assert (R : rate_is manual_rate_form (73 # 10))
    by (exists (Py.JNum (73 # 10)); repeat split).
  assert (O : older_than (exchange_rates january_store) "USD" "CNY"
                "2024-06-01").
  { intros r Hr _ _. vm_compute in Hr.
    repeat (destruct Hr as [<- | Hr]; [reflexivity|]). destruct Hr. }
  split; [exact P|]. split; [exact R|]. split; [exact O|].
  refine (proj1 (manual_rate_and_resolver "2024-06-01" january_store
                   manual_rate_form "USD" "CNY" (73 # 10) P R
                   eq_refl eq_refl _) O).
  discriminate.
Defined.

End Rates.

(** ** The refresh, row by row *)
Section RefreshRows.
Import FinanceApp.

Lemma wanted_cons rates c cs :
  wanted rates (c :: cs) =
  match doc_get rates c with
  | Some _ => if negb (String.eqb c "USD") then c :: wanted rates cs
              else wanted rates cs
  | None => wanted rates cs
  end.
Proof.
  unfold wanted. cbn [filter]. destruct (doc_get rates c); reflexivity.
Qed.

(** The loop of the refresh: it ends with one row for each wanted
    currency, in the order of [cs], or raises at a wanted currency whose
    number does not convert. *)
Lemma insert_fetched_exact today rates cs :
  forall tbl n,
    match insert_fetched today rates cs tbl n with
    | Some (tbl', n') =>
        exists new, tbl' = (tbl ++ new)%list
          /\ Forall2 (fetched_as today rates) (wanted rates cs) new
          /\ n' = n + List.length new
    | None =>
        exists c, In c (wanted rates cs) /\ fetched_rate rates c = None
    end.
Proof.
  induction cs as [|c cs IH]; intros tbl n; cbn [insert_fetched].
  - exists []. rewrite app_nil_r. repeat split; [constructor|cbn; lia].
  - rewrite wanted_cons. destruct (doc_get rates c) as [v|] eqn:D;
      [|apply IH].
    destruct (negb (String.eqb c "USD")); [|apply IH].
    destruct (Py.float v) as [rate|] eqn:F.
    + specialize (IH (insert_rate tbl "USD" c rate today "api") (n + 1)).
      destruct (insert_fetched _ _ _ _ _) as [[tbl' n']|].
      * destruct IH as (new & -> & H & ->). unfold insert_rate.
        rewrite <- app_assoc. eexists. split; [reflexivity|]. split.
        -- constructor; [|exact H]. unfold fetched_as, fetched_rate.
           cbn [er_from er_to er_rate er_date er_source]. rewrite D.
           repeat split. exact F.
        -- cbn [List.length app]. lia.
      * destruct IH as (c' & Hin & Hc'). exists c'.
        split; [right; exact Hin|exact Hc'].
    + exists c. split; [left; reflexivity|].
      unfold fetched_rate. rewrite D. exact F.
Qed.

Lemma wanted_in rates cs c :
  In c (wanted rates cs) -> In c cs /\ c <> "USD".
Proof.
  unfold wanted. intros H. apply filter_In in H. destruct H as [Hin H].
  split; [exact Hin|]. destruct (doc_get rates c); [|discriminate].
  apply negb_true_iff, String.eqb_neq in H. exact H.
Qed.

Lemma wanted_length rates : List.length (wanted rates CURRENCIES) <= 6.
Proof.
  unfold wanted, CURRENCIES. cbn [filter String.eqb Ascii.eqb Bool.eqb negb].
  repeat match goal with
         | |- context [doc_get rates ?c] => destruct (doc_get rates c)
         end; cbn [List.length]; lia.
Qed.

Lemma wanted_NoDup rates : NoDup (wanted rates CURRENCIES).
Proof.
  apply NoDup_filter. unfold CURRENCIES.
  repeat (constructor;
          [cbn [In]; intros H;
           repeat (destruct H as [H | H]; [discriminate H|]); exact H|]).
  constructor.
Qed.

(** X11. The refresh of finance_app.py writes, for each supported
    currency other than USD that the fetched document lists, in the
    order of [CURRENCIES], one USD row with the converted number, today's
    date and the source api: at most six rows, after the rows that were
    there.  It writes none of them, and answers False, when one of these
    numbers does not convert, and when the document could not be
    fetched. *)
Theorem update_rates_rows :
  forall today rates st,
    ((forall c, In c (wanted rates CURRENCIES) ->
                fetched_rate rates c <> None) ->
     exists new,
       update_rates today (Some rates) st
       = (true,
          mkstore (accounts st) (transactions st)
            (exchange_rates st ++ new))
       /\ Forall2 (fetched_as today rates) (wanted rates CURRENCIES) new
       /\ List.length new <= 6)
    /\ ((exists c, In c (wanted rates CURRENCIES)
                   /\ fetched_rate rates c = None) ->
        update_rates today (Some rates) st = (false, st))
    /\ update_rates today None st = (false, st).
Proof.
  intros today rates st. unfold update_rates.
  pose proof (insert_fetched_exact today rates CURRENCIES
                (exchange_rates st) 0) as X.
  destruct (insert_fetched _ _ _ _ _) as [[tbl' n']|].
  - destruct X as (new & -> & F & _). split; [|split; [|reflexivity]].
    + intros _. exists new. split; [reflexivity|]. split; [exact F|].
      rewrite <- (Forall2_length F). apply wanted_length.
    + intros (c & Hin & Hc). exfalso.
      apply in_split in Hin. destruct Hin as (a & b & Hab).
      rewrite Hab in F. apply Forall2_app_inv_l in F.
      destruct F as (la & lb & _ & Fb & _).
      inversion Fb as [|? r ? ? (_ & _ & Hr & _)]; subst.
      rewrite Hc in Hr. discriminate Hr.
  - destruct X as (c & Hin & Hc). split; [|split; reflexivity].
    intros H. exfalso. exact (H c Hin Hc).
Qed.

Lemma forall2_in_r {A B : Type} (P : A -> B -> Prop) l l' y :
  Forall2 P l l' -> In y l' -> exists x, In x l /\ P x y.
Proof.
  induction 1 as [|x y' l l' H F IH]; intros Hy; [destruct Hy|].
  destruct Hy as [<- | Hy].
  - exists x. split; [left; reflexivity|exact H].
  - destruct (IH Hy) as (x' & Hx' & HP). exists x'.
    split; [right; exact Hx'|exact HP].
Qed.

(** Among the rows of a refresh, the one for a currency, and no other
    row to that currency. *)
Lemma fetched_row_of today rates cs new c :
  Forall2 (fetched_as today rates) cs new -> NoDup cs -> In c cs ->
  exists l1 r l2, new = (l1 ++ r :: l2)%list
    /\ fetched_as today rates c r
    /\ (forall x, In x l1 -> er_to x <> c)
    /\ (forall x, In x l2 -> er_to x <> c).
Proof.
  induction 1 as [|c0 r0 cs new H F IH]; intros N Hc; [destruct Hc|].
  inversion N as [|? ? Hnot N']; subst.
  destruct Hc as [-> | Hc].
  - exists [], r0, new.
    split; [reflexivity|]. split; [exact H|]. split; [intros ? []|].
    intros x Hx E. destruct (forall2_in_r _ _ _ _ F Hx) as (c' & Hc' & P).
    destruct P as (_ & Hto & _). apply Hnot. congruence.
  - destruct (IH N' Hc) as (l1 & r & l2 & -> & P & H1 & H2).
    exists (r0 :: l1), r, l2.
    split; [reflexivity|]. split; [exact P|]. split; [|exact H2].
    intros x [<- | Hx]; [|apply H1, Hx].
    destruct H as (_ & Hto & _). rewrite Hto. intros ->. contradiction.
Qed.

(** X12. After a refresh that succeeded, the rate resolved from USD to a
    currency of the fetched document is the fetched number, provided every
    stored row of that pair is dated before today.  The refresh leaves
    the lookup of every pair that does not start at USD as it was: a
    stored rate from the currency to USD keeps being used for that
    direction. *)
Theorem refreshed_rate_is_resolved :
  forall today rates st c q,
    (forall c', In c' (wanted rates CURRENCIES) ->
                fetched_rate rates c' <> None) ->
    In c (wanted rates CURRENCIES) ->
    fetched_rate rates c = Some q ->
    older_than (exchange_rates st) "USD" c today ->
    let st' := snd (update_rates today (Some rates) st) in
    latest_rate st' "USD" c = q
    /\ forall f t,
         f <> "USD" ->
         latest_row (exchange_rates st') f t
         = latest_row (exchange_rates st) f t.
Proof.
  intros today rates st c q Hall Hc Hq O st'. subst st'.
  unfold update_rates.
  pose proof (insert_fetched_exact today rates CURRENCIES
                (exchange_rates st) 0) as X.
  destruct (insert_fetched _ _ _ _ _) as [[tbl' n']|].
  2:{ exfalso. destruct X as (c' & Hin & Hn). exact (Hall c' Hin Hn). }
  destruct X as (new & -> & F & _). cbn [snd]. split.
  - destruct (fetched_row_of _ _ _ _ c F (wanted_NoDup rates) Hc)
      as (l1 & r & l2 & -> & (Hfrom & Hto & Hrate & Hdate & _) & H1 & H2).
    unfold latest_rate. cbn [exchange_rates].
    assert (Hne : String.eqb "USD" c = false).
    { apply String.eqb_neq. intros <-.
      destruct (wanted_in _ _ _ Hc) as [_ N]. apply N. reflexivity. }
    rewrite (resolve_direct _ "USD" c r Hne).
    + cbn [fst]. congruence.
    + apply (latest_row_first_max _ _ _
               (filter (pair_is "USD" c) (exchange_rates st)) r []).
      * rewrite !filter_app. cbn [filter].
        rewrite (filter_none _ l1), (filter_none _ l2).
        -- replace (pair_is "USD" c r) with true; [reflexivity|].
           symmetry. apply pair_is_true. split; assumption.
        -- intros x Hx. apply pair_is_false. right. apply H2, Hx.
        -- intros x Hx. apply pair_is_false. right. apply H1, Hx.
      * intros x Hx. apply filter_In in Hx. destruct Hx as [Hin Hp].
        apply pair_is_true in Hp. destruct Hp. rewrite Hdate.
        apply O; assumption.
      * intros x [].
  - intros f t Hf. cbn [exchange_rates]. unfold latest_row.
    rewrite filter_app, (filter_none _ new), app_nil_r; [reflexivity|].
    intros x Hx. apply pair_is_false. left.
    destruct (forall2_in_r _ _ _ _ F Hx) as (c' & _ & (Hfrom & _)).
    congruence.
Qed.

(** A refresh in June over the defaults of January: USD -> CNY is then
    the fetched 7.1. *)
Lemma refreshed_rate_is_resolved_witness :
  In "CNY" (wanted fetched_doc CURRENCIES)
  /\ fetched_rate fetched_doc "CNY" = Some (71 # 10)%Q
  /\ older_than (exchange_rates january_store) "USD" "CNY" "2024-06-01"
  /\ latest_rate
       (snd (update_rates "2024-06-01" (Some fetched_doc) january_store))
       "USD" "CNY" = (71 # 10)%Q.
Proof.
  assert (W : In "CNY" (wanted fetched_doc CURRENCIES))
    by (left; reflexivity).
  assert (O : older_than (exchange_rates january_store) "USD" "CNY"
                "2024-06-01").
  { intros r Hr _ _. vm_compute in Hr.
    repeat (destruct Hr as [<- | Hr]; [reflexivity|]). destruct Hr. }
  split; [exact W|]. split; [reflexivity|]. split; [exact O|].
  refine (proj1 (refreshed_rate_is_resolved "2024-06-01" fetched_doc
                   january_store "CNY" (71 # 10) _ W eq_refl O)).
  intros c' Hc'. vm_compute in Hc'.
  repeat (destruct Hc' as [<- | Hc']; [discriminate|]). destruct Hc'.
Defined.

End RefreshRows.

(** ** The first start *)
Section Seeding.
Import FinanceApp.

(** X13. [init_db] leaves the transactions alone, writes the account
    Main Account in CNY with id 1 only into an empty accounts table, and
    the six default rates, dated today with the source default and the
    ids 1 to 6, only into an empty rate table.  Run again, on any day, it
    changes nothing. *)
Theorem init_db_seeds_once :
  forall today st,
    let st' := init_db today st in
    transactions st' = transactions st
    /\ (accounts st <> [] -> accounts st' = accounts st)
    /\ (accounts st = [] -> accounts st' = [mkaccount 1 "Main Account" "CNY"])
    /\ (exchange_rates st <> [] -> exchange_rates st' = exchange_rates st)
    /\ (exchange_rates st = [] ->
        map rate_fields (exchange_rates st')
        = map (fun '(f, t, r) => (f, t, r, today, "default")) default_rates
        /\ map er_id (exchange_rates st') = [1; 2; 3; 4; 5; 6]%Z)
    /\ forall today', init_db today' st' = st'.
Proof.
  intros today [[|a accs] txs [|r rs]] st'; subst st';
    repeat split; intros;
    try (cbn [accounts exchange_rates] in *; congruence); reflexivity.
Qed.

End Seeding.

(** ** The monthly report, category by category, and its document *)
Section Views.
Import FinanceApp.










Lemma firstn_min_length {A : Type} (a : nat) (l : list A) :
  firstn (Nat.min a (List.length l)) l = firstn a l.
Proof.
  destruct (Nat.le_gt_cases a (List.length l)) as [H | H].
  - rewrite Nat.min_l by exact H. reflexivity.
  - rewrite Nat.min_r by lia. rewrite firstn_all.
    symmetry. apply firstn_all2. lia.
Qed.

Lemma iloc_chunk {A : Type} (df : list A) (p n : nat) :
  p * n <= List.length df ->
  iloc df (p * n) (Nat.min (p * n + n) (List.length df))
  = firstn n (skipn (p * n) df).
Proof.
  intros H. unfold iloc. rewrite <- (firstn_min_length n).
  rewrite length_skipn. f_equal. lia.
Qed.

Lemma chunks_concat {A : Type} (n k : nat) :
  forall df : list A,
    List.length df <= k * n ->
    List.concat (map (fun p => firstn n (skipn (p * n) df)) (seq 0 k)) = df.
Proof.
  induction k as [|k IH]; intros df H.
  - cbn in H. destruct df; [reflexivity|cbn in H; lia].
  - cbn [seq map List.concat]. rewrite <- seq_shift, map_map.
    cbn [Nat.mul skipn Nat.add].
    transitivity (firstn n df ++ skipn n df)%list; [|apply firstn_skipn].
    f_equal. rewrite <- (IH (skipn n df)) at 1.
    + apply f_equal. apply map_ext. intros p. rewrite skipn_skipn.
      f_equal. f_equal. cbn [Nat.mul]. lia.
    + rewrite length_skipn. cbn [Nat.mul] in H. lia.
Qed.

(** X16. The table pages of the PDF split the rows of the month without
    loss or overlap: the pages, one after the other, hold the rows in
    their order; page [i] starts at row 25 i, holds between 1 and 25
    rows, 25 unless it is the last, and is titled with the positions of
    its first and last row; no rows give no page.  The report's limit of
    10000 rows makes that at most 400 pages. *)
Theorem table_pages_partition :
  (forall df,
     let pages := table_pages df in
     List.concat (map page_rows pages) = df
     /\ (df = [] <-> pages = [])
     /\ forall i pg,
          nth_error pages i = Some pg ->
          page_start pg = 25 * i
          /\ page_end pg = page_start pg + List.length (page_rows pg)
          /\ page_rows pg = firstn 25 (skipn (25 * i) df)
          /\ 1 <= List.length (page_rows pg) <= 25
          /\ (S i < List.length pages -> List.length (page_rows pg) = 25))
  /\ forall st year month,
       (Z.of_nat (List.length (api_monthly_report_pdf_pages st year month))
        <= 400)%Z.
Proof.
  split.
  - intros df. cbv zeta. unfold table_pages. cbv zeta.
    set (n := List.length df).
    set (P := (n + 25 - 1) / 25).
    assert (HP : n <= P * 25 /\ (P = 0 \/ (P - 1) * 25 < n)).
    { subst P. pose proof (Nat.div_mod_eq (n + 25 - 1) 25) as D.
      pose proof (Nat.mod_upper_bound (n + 25 - 1) 25) as U. lia. }
    assert (Hrows : forall p, p < P ->
              iloc df (p * 25) (Nat.min (p * 25 + 25) n)
              = firstn 25 (skipn (p * 25) df)).
    { intros p Hp. apply iloc_chunk. fold n. nia. }
    split; [|split].
    + rewrite map_map. cbn [page_rows].
      transitivity
        (List.concat
           (map (fun p => firstn 25 (skipn (p * 25) df)) (seq 0 P))).
      * f_equal. apply map_ext_in. intros p Hp. apply in_seq in Hp.
        apply Hrows. lia.
      * apply chunks_concat. fold n. lia.
    + split.
      * intros ->. reflexivity.
      * intros H. apply (f_equal (@List.length table_page)) in H.
        rewrite length_map, length_seq in H. cbn [List.length] in H.
        apply length_zero_iff_nil. fold n. lia.
    + intros i pg H. rewrite nth_error_map in H.
      destruct (nth_error (seq 0 P) i) as [p|] eqn:E; [|discriminate H].
      assert (Hi : i < P).
      { pose proof (proj1 (nth_error_Some (seq 0 P) i)) as Hlt.
        rewrite length_seq in Hlt. apply Hlt. congruence. }
      rewrite nth_error_seq in E.
      destruct (Nat.ltb_spec i P) as [_ | Hge]; [|lia].
      cbn [Nat.add] in E. injection E as <-.
      cbn [option_map] in H. injection H as <-.
      cbn [page_start page_end page_rows]. rewrite (Hrows i Hi).
      rewrite (Nat.mul_comm i 25).
      assert (Hlen : List.length (firstn 25 (skipn (25 * i) df))
                     = Nat.min 25 (n - 25 * i)).
      { rewrite length_firstn, length_skipn. reflexivity. }
      rewrite Hlen, length_map, length_seq.
      split; [reflexivity|]. split; [lia|]. split; [reflexivity|].
      split; [nia|]. intros Hs. nia.
  - intros st year month. unfold api_monthly_report_pdf_pages, table_pages.
    cbv zeta. rewrite length_map, length_seq.
    assert (L : (Z.of_nat (List.length
                   (get_transactions st 10000 None (Some year) (Some month)))
                 <= 10000)%Z).
    { unfold get_transactions. rewrite length_map, limit_length by lia.
      lia. }
    set (n := List.length _) in *.
    pose proof (Nat.div_mod_eq (n + 25 - 1) 25) as D.
    pose proof (Nat.mod_upper_bound (n + 25 - 1) 25) as U. lia.
Qed.

End Views.

(** ** The sign of rates and balances *)
Section BalanceFacts.
Import FinanceApp.















End BalanceFacts.

(** ** GROUP BY *)
Section GroupFacts.
Context {A K : Type} (cmp : K -> K -> comparison)
        (key : A -> K) (val : A -> Q).
Hypothesis cmp_eq : forall a b, cmp a b = Eq <-> a = b.

Lemma key_eqb_eq (a b : K) : Sql.key_eqb cmp a b = true <-> a = b.
Proof.
  unfold Sql.key_eqb. rewrite <- cmp_eq.
  destruct (cmp a b); split; congruence.
Qed.

Lemma key_eqb_neq (a b : K) : Sql.key_eqb cmp a b = false <-> a <> b.
Proof.
  rewrite <- key_eqb_eq. destruct (Sql.key_eqb cmp a b); split; congruence.
Qed.

Lemma q_sum_app (l l' : list Q) : q_sum (l ++ l') == q_sum l + q_sum l'.
Proof.
  induction l as [|x l IH]; cbn [app].
  - unfold q_sum at 2. cbn [fold_right]. ring.
  - rewrite !q_sum_cons, IH. ring.
Qed.

(** What [add_to_group] does to the groups. *)
Lemma add_to_group_spec (g : list (K * Q)) (k : K) (v : Q) :
  (exists g1 s g2,
     g = (g1 ++ (k, s) :: g2)%list
     /\ Sql.add_to_group cmp g k v = (g1 ++ (k, (s + v)%Q) :: g2)%list)
  \/ (~ In k (map fst g)
      /\ Sql.add_to_group cmp g k v = (g ++ [(k, v)])%list).
Proof.
  induction g as [|[k' s] g IH]; cbn [Sql.add_to_group].
  - right. split; [intros []|reflexivity].
  - destruct (Sql.key_eqb cmp k' k) eqn:E.
    + apply key_eqb_eq in E. subst k'. left. exists [], s, g.
      split; reflexivity.
    + apply key_eqb_neq in E. destruct IH as [(g1 & s' & g2 & -> & ->) | [N ->]].
      * left. exists ((k', s) :: g1), s', g2. split; reflexivity.
      * right. split; [|reflexivity]. cbn [map fst In]. tauto.
Qed.

Lemma keyed_snoc (k : K) (rows : list A) (r : A) :
  keyed cmp key k (rows ++ [r]) =
  (keyed cmp key k rows
   ++ (if Sql.key_eqb cmp (key r) k then [r] else []))%list.
Proof. unfold keyed. rewrite filter_app. reflexivity. Qed.

Lemma groups_of_step (g : list (K * Q)) (rows : list A) (r : A) :
  groups_of cmp key val g rows ->
  groups_of cmp key val (Sql.add_to_group cmp g (key r) (val r))
    (rows ++ [r]).
Proof.
  intros (N & S & C).
  destruct (add_to_group_spec g (key r) (val r))
    as [(g1 & s & g2 & Eg & ->) | [Hn ->]].
  - subst g.
    assert (Ek : map fst (g1 ++ (key r, (s + val r)%Q) :: g2)
                 = map fst (g1 ++ (key r, s) :: g2))
      by (rewrite !map_app; reflexivity).
    split; [rewrite Ek; exact N|]. split.
    + intros k s' Hin. apply in_app_or in Hin.
      assert (Hold : In (k, s') (g1 ++ (key r, s) :: g2) -> k <> key r ->
                     s' == q_sum (map val (keyed cmp key k (rows ++ [r])))
                     /\ exists r0, In r0 (rows ++ [r]) /\ key r0 = k).
      { intros Hin' Hne. destruct (S k s' Hin') as [Hs (r0 & Hr0 & Hk)].
        split; [|exists r0; split; [apply in_or_app; left; exact Hr0|exact Hk]].
        rewrite keyed_snoc.
        replace (Sql.key_eqb cmp (key r) k) with false
          by (symmetry; apply key_eqb_neq; congruence).
        rewrite app_nil_r. exact Hs. }
      assert (Hmid : forall k0 s0, In (k0, s0) g1 \/ In (k0, s0) g2 ->
                                   k0 <> key r).
      { intros k0 s0 H0 ->. rewrite map_app in N. cbn [map fst] in N.
        apply NoDup_remove_2 in N. apply N. apply in_or_app.
        destruct H0 as [H0 | H0]; [left|right];
          exact (in_map fst _ _ H0). }
      destruct Hin as [Hin | [Hin | Hin]].
      * apply Hold; [apply in_or_app; left; exact Hin|].
        apply (Hmid k s'). left. exact Hin.
      * injection Hin as <- <-.
        destruct (S (key r) s (in_elt _ _ _)) as [Hs _].
        split; [|exists r; split; [apply in_elt|reflexivity]].
        rewrite keyed_snoc.
        replace (Sql.key_eqb cmp (key r) (key r)) with true
          by (symmetry; apply key_eqb_eq; reflexivity).
        rewrite map_app, q_sum_app, <- Hs. cbn [map]. rewrite q_sum_cons.
        unfold q_sum. cbn [fold_right]. ring.
      * apply Hold; [apply in_or_app; right; right; exact Hin|].
        apply (Hmid k s'). right. exact Hin.
    + intros r0 Hr0. rewrite Ek. apply in_app_or in Hr0.
      destruct Hr0 as [Hr0 | [<- | []]]; [apply C, Hr0|].
      rewrite map_app. apply in_elt.
  - split; [|split].
    + rewrite map_app. cbn [map fst].
      apply NoDup_app; [exact N|repeat constructor; intros []|].
      intros x Hx [<- | []]. contradiction.
    + intros k s Hin. apply in_app_or in Hin.
      destruct Hin as [Hin | [Hin | []]].
      * destruct (S k s Hin) as [Hs (r0 & Hr0 & Hk)].
        split; [|exists r0; split; [apply in_or_app; left; exact Hr0|exact Hk]].
        rewrite keyed_snoc.
        replace (Sql.key_eqb cmp (key r) k) with false.
        -- rewrite app_nil_r. exact Hs.
        -- symmetry. apply key_eqb_neq. intros E. apply Hn. rewrite E.
           exact (in_map fst _ _ Hin).
      * injection Hin as <- <-.
        split; [|exists r; split; [apply in_elt|reflexivity]].
        rewrite keyed_snoc.
        replace (Sql.key_eqb cmp (key r) (key r)) with true
          by (symmetry; apply key_eqb_eq; reflexivity).
        assert (E : keyed cmp key (key r) rows = []).
        { unfold keyed.
          destruct (filter _ rows) as [|r0 l] eqn:F; [reflexivity|].
          exfalso. apply Hn.
          assert (Hr0 : In r0 (filter (fun r1 => Sql.key_eqb cmp (key r1) (key r))
                                 rows))
            by (rewrite F; left; reflexivity).
          apply filter_In in Hr0. destruct Hr0 as [Hr0 Hk].
          apply key_eqb_eq in Hk. rewrite <- Hk. apply C, Hr0. }
        rewrite E. cbn [app map]. rewrite q_sum_cons.
        unfold q_sum. cbn [fold_right]. ring.
    + intros r0 Hr0. rewrite map_app. apply in_or_app.
      apply in_app_or in Hr0.
      destruct Hr0 as [Hr0 | [<- | []]]; [left; apply C, Hr0|].
      right. left. reflexivity.
Qed.

Lemma groups_of_loop (rows' : list A) :
  forall g rows,
    groups_of cmp key val g rows ->
    groups_of cmp key val
      (fold_left (fun g r => Sql.add_to_group cmp g (key r) (val r)) rows' g)
      (rows ++ rows').
Proof.
  induction rows' as [|r rows' IH]; intros g rows H; cbn [fold_left].
  - rewrite app_nil_r. exact H.
  - replace (rows ++ r :: rows')%list with ((rows ++ [r]) ++ rows')%list
      by (rewrite <- app_assoc; reflexivity).
    apply IH, groups_of_step, H.
Qed.

(** [GROUP BY]: one row per key that occurs, with the sum of its rows. *)
Lemma group_by_sum_groups (rows : list A) :
  groups_of cmp key val (Sql.group_by_sum cmp key val rows) rows.
Proof.
  unfold Sql.group_by_sum.
  set (g := fold_left _ rows []).
  assert (G : groups_of cmp key val g rows).
  { subst g. apply (groups_of_loop rows [] []).
    split; [constructor|]. split; [intros ? ? []|intros ? []]. }
  pose proof (order_by_perm (fun a b : K * Q => cmp (fst a) (fst b)) g) as P.
  destruct G as (N & S & C). split; [|split].
  - eapply Permutation_NoDup; [apply Permutation_map, P|exact N].
  - intros k s Hin. apply S.
    eapply Permutation_in; [apply Permutation_sym, P|exact Hin].
  - intros r Hr.
    eapply Permutation_in; [apply Permutation_map, P|apply C, Hr].
Qed.

End GroupFacts.

(** ** The dashboard *)
Section Dashboard.
Import FinanceApp.

Lemma string_compare_eq (a b : string) : String.compare a b = Eq <-> a = b.
Proof.
  split; [apply String.compare_eq_iff|].
  intros ->. apply String_as_OT.cmp_eq. reflexivity.
Qed.

Lemma pair_compare_eq (a b : string * string) :
  match String.compare (fst a) (fst b) with
  | Eq => String.compare (snd a) (snd b)
  | c => c
  end = Eq <-> a = b.
Proof.
  destruct a as [a1 a2], b as [b1 b2]. cbn [fst snd]. split.
  - destruct (String.compare a1 b1) eqn:E1; try discriminate.
    intros E2. apply string_compare_eq in E1, E2. congruence.
  - intros [= -> ->].
    rewrite (proj2 (string_compare_eq b1 b1) eq_refl).
    apply string_compare_eq. reflexivity.
Qed.

Lemma filter_all {A : Type} (p : A -> bool) (l : list A) :
  (forall x, p x = true) -> filter p l = l.
Proof.
  intros H. induction l as [|x l IH]; [reflexivity|].
  cbn [filter]. rewrite H, IH. reflexivity.
Qed.

Lemma keyed_type_currency ty currency (rows : list transaction) :
  keyed type_currency_cmp (fun t => (tx_type t, tx_currency t))
    (ty, currency) rows
  = filter (of_type_currency ty currency) rows.
Proof.
  unfold keyed. apply filter_ext. intros t. unfold of_type_currency.
  destruct (Sql.key_eqb type_currency_cmp (tx_type t, tx_currency t)
              (ty, currency)) eqn:E.
  - apply (key_eqb_eq type_currency_cmp pair_compare_eq) in E.
    injection E as -> ->. rewrite !String.eqb_refl. reflexivity.
  - apply (key_eqb_neq type_currency_cmp pair_compare_eq) in E.
    destruct (String.eqb_spec (tx_type t) ty) as [E1 | N]; [|reflexivity].
    destruct (String.eqb_spec (tx_currency t) currency) as [E2 | N];
      [|reflexivity].
    exfalso. apply E. rewrite E1, E2. reflexivity.
Qed.

(** X19. The dashboard.  Its summary of the current month has one line
    for each pair of a type and a currency that occurs among the month's
    transactions, with the sum of the amounts of that type in that
    currency: amounts in different currencies are never added.  Its
    recent transactions are what [get_transactions] returns under a
    limit of 10 and no filter, and its accounts are those of the table,
    in the table's order, each with its balance. *)
Theorem dashboard_contents :
  forall today st,
    let d := api_dashboard today st in
    let rows := month_rows st (Py.year today) (Py.month today) in
    NoDup (map summary_key (dash_monthly_summary d))
    /\ (forall s,
          In s (dash_monthly_summary d) ->
          sum_total s
          == q_sum (map tx_amount
                      (filter (of_type_currency (sum_type s) (sum_currency s))
                         rows))
          /\ exists t, In t rows /\ tx_type t = sum_type s
                       /\ tx_currency t = sum_currency s)
    /\ (forall t,
          In t rows ->
          exists s, In s (dash_monthly_summary d)
                    /\ sum_type s = tx_type t
                    /\ sum_currency s = tx_currency t)
    /\ dash_recent_transactions d = get_transactions st 10 None None None
    /\ List.length (dash_recent_transactions d) <= 10
    /\ map fst (dash_accounts d) = accounts st
    /\ forall a b, In (a, b) (dash_accounts d) -> b = account_balance st a.
Proof.
  intros today st. cbv zeta. unfold api_dashboard.
  cbn [dash_monthly_summary dash_recent_transactions dash_accounts].
  unfold monthly_summary. fold (month_rows st (Py.year today) (Py.month today)).
  set (rows := month_rows st (Py.year today) (Py.month today)).
  pose proof (group_by_sum_groups type_currency_cmp
                (fun t => (tx_type t, tx_currency t)) tx_amount
                pair_compare_eq rows) as (N & S & C).
  set (g := Sql.group_by_sum _ _ _ rows) in *.
  split; [|split; [|split; [|split; [|split; [|split]]]]].
  - rewrite map_map.
    replace (map _ g) with (map fst g); [exact N|].
    apply map_ext. intros [[ty cur] total]. reflexivity.
  - intros s Hs. apply in_map_iff in Hs.
    destruct Hs as ([[ty cur] total] & <- & Hin).
    cbn [sum_total sum_type sum_currency].
    destruct (S _ _ Hin) as [Hs (t & Ht & Hk)].
    rewrite keyed_type_currency in Hs. split; [exact Hs|].
    exists t. injection Hk as <- <-. auto.
  - intros t Ht. specialize (C t Ht). apply in_map_iff in C.
    destruct C as ([[ty cur] total] & Hk & Hin). cbn [fst] in Hk.
    injection Hk as -> ->.
    exists (mksummary (tx_type t) total (tx_currency t)).
    split; [|split; reflexivity].
    apply in_map_iff. exists ((tx_type t, tx_currency t), total).
    split; [reflexivity|exact Hin].
  - unfold recent_transactions, get_transactions.
    rewrite (filter_all (where_clause None None None)) by reflexivity.
    reflexivity.
  - unfold recent_transactions. rewrite length_map.
    rewrite limit_length by lia. lia.
  - unfold api_dashboard_accounts. rewrite map_map. cbn [fst].
    apply map_id.
  - intros a b H. unfold api_dashboard_accounts in H.
    apply in_map_iff in H. destruct H as (a' & [= <- <-] & _). reflexivity.
Qed.

End Dashboard.

(** ** server.py *)
Section ServerFacts.
Import Server.


(** The loop of the refresh of server.py, from any store. *)
Lemma server_insert_loop today (l : list (string * string * Q)) :
  forall s,
    let s' :=
      fold_left
        (fun s '(from_curr, to_curr, rate) =>
           insert_rate s from_curr to_curr rate today)
        l s in
    map server_rate_fields (exchange_rates s')
    = (map server_rate_fields (exchange_rates s)
       ++ map (fun '(f, t, r) => (f, t, r, today, "api")) l)%list
    /\ transactions s' = transactions s
    /\ (StronglySorted Z.lt (map er_id (exchange_rates s)) ->
        StronglySorted Z.lt (map er_id (exchange_rates s')))
    /\ (forall r, In r (exchange_rates s') ->
          In r (exchange_rates s) \/ (rate_seq s < er_id r)%Z)
    /\ ((forall r, In r (exchange_rates s) -> (er_id r <= rate_seq s)%Z) ->
        forall r, In r (exchange_rates s') -> (er_id r <= rate_seq s')%Z)
    /\ (rate_seq s <= rate_seq s')%Z
    /\ (l <> [] -> (0 < rate_seq s')%Z).
Proof.
  induction l as [|[[f t] q] l IH]; intros s; cbv zeta; cbn [fold_left].
  - rewrite app_nil_r. repeat split; auto; try lia. congruence.
  - specialize (IH (insert_rate s f t q today)). cbv zeta in IH.
    destruct IH as (I1 & I2 & I3 & I4 & I5 & I6 & I7).
    set (s' := fold_left _ l (insert_rate s f t q today)) in *.
    clearbody s'.
    unfold insert_rate in I1, I2, I3, I4, I5, I6.
    cbn [exchange_rates transactions rate_seq] in I1, I2, I3, I4, I5, I6.
    set (id := (1 + Z.max (rate_seq s)
                      (fold_right Z.max 0 (map er_id (exchange_rates s))))%Z)
      in *.
    destruct (max_rowid_ge (map er_id (exchange_rates s))) as [M0 M].
    assert (Hold : forall r, In r (exchange_rates s) -> (er_id r < id)%Z).
    { intros r Hr. specialize (M _ (in_map er_id _ _ Hr)). lia. }
    split; [|split; [|split; [|split; [|split; [|split]]]]].
    + rewrite I1, map_app, <- app_assoc. reflexivity.
    + exact I2.
    + intros S. apply I3. rewrite map_app. apply sorted_snoc; [exact S|].
      intros x Hx. apply in_map_iff in Hx. destruct Hx as (r & <- & Hr).
      apply Hold, Hr.
    + intros r Hr. destruct (I4 r Hr) as [H | H]; [|right; lia].
      apply in_app_or in H. destruct H as [H | [<- | []]];
        [left; exact H|right; cbn [er_id]; lia].
    + intros _ r Hr. apply I5; [|exact Hr].
      intros r' Hr'. apply in_app_or in Hr'.
      destruct Hr' as [Hr' | [<- | []]];
        [specialize (Hold _ Hr'); lia|cbn [er_id]; lia].
    + lia.
    + intros _. lia.
Qed.

(** X21. [handle_update_rates] of server.py leaves in the rate table
    the six built-in rates and nothing else, dated today with the source
    api, whatever the table held; their ids rise in the order of the
    list and lie above every id the table ever gave out, so no id is
    used twice.  The transactions are not touched. *)
Theorem server_refresh_rows :
  forall today st,
    let st' := handle_update_rates today st in
    map server_rate_fields (exchange_rates st')
    = map (fun '(f, t, r) => (f, t, r, today, "api")) rates_data
    /\ transactions st' = transactions st
    /\ StronglySorted Z.lt (map er_id (exchange_rates st'))
    /\ (forall r, In r (exchange_rates st') ->
          (rate_seq st < er_id r <= rate_seq st')%Z)
    /\ (0 < rate_seq st')%Z.
Proof.
  intros today st. cbv zeta. unfold handle_update_rates. cbv zeta.
  pose proof (server_insert_loop today rates_data
                (mkstore (transactions st) [] (rate_seq st))) as L.
  cbv zeta in L. cbn [exchange_rates transactions rate_seq map app] in L.
  destruct L as (L1 & L2 & L3 & L4 & L5 & L6 & L7).
  split; [exact L1|]. split; [exact L2|].
  split; [apply L3; constructor|]. split.
  - intros r Hr. split.
    + destruct (L4 r Hr) as [[] | H]. exact H.
    + apply L5; [intros ? []|exact Hr].
  - apply L7. discriminate.
Qed.

Lemma key_eqb_string (a b : string) :
  Sql.key_eqb String.compare a b = String.eqb a b.
Proof.
  destruct (String.eqb_spec a b) as [E | N].
  - apply (key_eqb_eq String.compare string_compare_eq). exact E.
  - apply (key_eqb_neq String.compare string_compare_eq). exact N.
Qed.

Lemma get_total_groups (g : list (string * Q)) (k : string) :
  (forall s, NoDup (map fst g) -> In (k, s) g -> get_total g k 0 = s)
  /\ (~ In k (map fst g) -> get_total g k 0 = 0%Q).
Proof.
  induction g as [|[k' v] g [IH1 IH2]]; cbn [get_total map fst In].
  - split; [intros ? _ []|reflexivity].
  - split.
    + intros s N H. inversion N as [|? ? Hn N']; subst.
      destruct (String.eqb_spec k' k) as [-> | Hne].
      * destruct H as [[= ->] | H]; [reflexivity|].
        exfalso. apply Hn. exact (in_map fst _ _ H).
      * destruct H as [[= E _] | H]; [contradiction|].
        apply IH1; assumption.
    + intros H. destruct (String.eqb_spec k' k) as [-> | Hne]; [tauto|].
      apply IH2. tauto.
Qed.

(** [totals.get(k, 0)] is the sum over the rows of type [k]. *)
Lemma get_total_sum (rows : list transaction) (k : string) :
  get_total (Sql.group_by_sum String.compare tx_type tx_amount rows) k 0
  == q_sum (map tx_amount (filter (server_of_type k) rows)).
Proof.
  pose proof (group_by_sum_groups String.compare tx_type tx_amount
                string_compare_eq rows) as (N & S & C).
  set (g := Sql.group_by_sum _ _ _ rows) in *.
  assert (K : keyed String.compare tx_type k rows
              = filter (server_of_type k) rows).
  { unfold keyed. apply filter_ext. intros t. apply key_eqb_string. }
  destruct (in_dec string_dec k (map fst g)) as [Hin | Hn].
  - apply in_map_iff in Hin. destruct Hin as ([k' s] & Ek & Hin).
    cbn [fst] in Ek. subst k'.
    rewrite (proj1 (get_total_groups g k) s N Hin).
    rewrite <- K. apply S, Hin.
  - rewrite (proj2 (get_total_groups g k) Hn).
    destruct (filter (server_of_type k) rows) as [|t l] eqn:F;
      [reflexivity|].
    exfalso. apply Hn.
    assert (Ht : In t (filter (server_of_type k) rows))
      by (rewrite F; left; reflexivity).
    apply filter_In in Ht. destruct Ht as [Ht Hk].
    unfold server_of_type in Hk. apply String.eqb_eq in Hk.
    rewrite <- Hk. apply C, Ht.
Qed.

Lemma assign_fresh (d : list (string * Q)) (k : string) (v : Q) :
  ~ In k (map fst d) -> assign d k v = (d ++ [(k, v)])%list.
Proof.
  induction d as [|[k' v'] d IH]; intros H; [reflexivity|].
  cbn [assign]. cbn [map fst In] in H.
  destruct (String.eqb_spec k' k) as [E | N]; [tauto|].
  rewrite IH by tauto. reflexivity.
Qed.

(** In the loop over the breakdown rows the expense side is only ever
    appended to: its keys are categories of distinct groups. *)
Lemma expense_side (b : list (string * string * Q)) :
  forall e i,
    NoDup (map fst b) ->
    (forall c, In c (map fst e) -> ~ In ("expense", c) (map fst b)) ->
    fst (fold_left
           (fun '(e, i) '((ty, category), total) =>
              if String.eqb ty "expense"
              then (assign e category total, i)
              else (e, assign i category total))
           b (e, i))
    = (e ++ map (fun x => (snd (fst x), snd x))
              (filter (fun x => String.eqb (fst (fst x)) "expense") b))%list.
Proof.
  induction b as [|[[ty cat] total] b IH]; intros e i N D.
  - cbn [fold_left filter map fst]. rewrite app_nil_r. reflexivity.
  - cbn [fold_left filter map fst snd].
    inversion N as [|? ? Hn N']; subst.
    destruct (String.eqb_spec ty "expense") as [-> | Hne].
    + rewrite IH.
      * rewrite assign_fresh.
        -- rewrite <- app_assoc. reflexivity.
        -- intros H. apply (D cat H). left. reflexivity.
      * exact N'.
      * intros c Hc. rewrite assign_fresh in Hc
          by (intros H; apply (D cat H); left; reflexivity).
        rewrite map_app in Hc. apply in_app_or in Hc.
        destruct Hc as [Hc | [<- | []]].
        -- intros H. apply (D c Hc). right. exact H.
        -- exact Hn.
    + apply IH; [exact N'|].
      intros c Hc H. apply (D c Hc). right. exact H.
Qed.

(** X22. The monthly report of server.py, over the rows whose date text
    starts with the month: the income and the expense total are the sums
    of the amounts of these two types, the net is their difference, and
    the expense breakdown has one entry for each category of an expense,
    with the sum of the expenses of that category. *)
Theorem server_report_totals :
  forall st year month,
    let r := handle_get_monthly_report st year month in
    let rows := server_month_rows st year month in
    income_total r
    == q_sum (map tx_amount (filter (server_of_type "income") rows))
    /\ expense_total r
       == q_sum (map tx_amount (filter (server_of_type "expense") rows))
    /\ net r = (income_total r - expense_total r)%Q
    /\ NoDup (map fst (expense_by_category r))
    /\ (forall k s,
          In (k, s) (expense_by_category r) ->
          s == q_sum (map tx_amount (filter (server_expense_in k) rows)))
    /\ forall k,
         In k (map fst (expense_by_category r)) <->
         exists t, In t rows /\ server_expense_in k t = true.
Proof.
  intros st year month. cbv zeta. unfold handle_get_monthly_report.
  cbv zeta. fold (server_month_rows st year month).
  set (rows := server_month_rows st year month).
  pose proof (group_by_sum_groups type_category_cmp
                (fun t => (tx_type t, tx_category t)) tx_amount
                pair_compare_eq rows) as (N & S & C).
  set (b := Sql.group_by_sum type_category_cmp _ _ rows) in *.
  pose proof (expense_side b [] [] N (fun c H => match H with end)) as X.
  revert X.
  destruct (fold_left _ b ([], [])) as [e i].
  cbn [fst app income_total expense_total net expense_by_category].
  intros ->.
  assert (K : forall k,
            keyed type_category_cmp (fun t => (tx_type t, tx_category t))
              ("expense", k) rows
            = filter (server_expense_in k) rows).
  { intros k. unfold keyed. apply filter_ext. intros t.
    unfold server_expense_in.
    destruct (Sql.key_eqb type_category_cmp (tx_type t, tx_category t)
                ("expense", k)) eqn:E.
    - apply (key_eqb_eq type_category_cmp pair_compare_eq) in E.
      injection E as E1 E2. rewrite E1, E2, !String.eqb_refl. reflexivity.
    - apply (key_eqb_neq type_category_cmp pair_compare_eq) in E.
      destruct (String.eqb_spec (tx_type t) "expense") as [E1 | N1];
        [|reflexivity].
      destruct (String.eqb_spec (tx_category t) k) as [E2 | N2];
        [|reflexivity].
      exfalso. apply E. rewrite E1, E2. reflexivity. }
  assert (M : forall k s,
            In (k, s)
              (map (fun x : string * string * Q => (snd (fst x), snd x))
                 (filter (fun x => String.eqb (fst (fst x)) "expense") b))
            <-> In (("expense", k), s) b).
  { intros k s. rewrite in_map_iff. split.
    - intros ([[ty c] v] & [= <- <-] & H). apply filter_In in H.
      destruct H as [H Ety]. cbn [fst] in Ety. apply String.eqb_eq in Ety.
      subst ty. exact H.
    - intros H. exists (("expense", k), s). split; [reflexivity|].
      apply filter_In. split; [exact H|reflexivity]. }
  split; [apply get_total_sum|]. split; [apply get_total_sum|].
  split; [reflexivity|]. split; [|split].
  - clear -N. induction b as [|[[ty c] v] b IH]; [constructor|].
    cbn [filter fst]. inversion N as [|? ? Hn N']; subst.
    destruct (String.eqb_spec ty "expense") as [-> | Hne]; [|apply IH, N'].
    cbn [map fst snd]. constructor; [|apply IH, N'].
    intros H. apply Hn. apply in_map_iff in H.
    destruct H as ([c' s'] & Ec & H). cbn [fst] in Ec. subst c'.
    apply in_map_iff in H. destruct H as ([[ty' c''] v''] & [= <- <-] & H).
    apply filter_In in H. destruct H as [H Ety]. cbn [fst] in Ety.
    apply String.eqb_eq in Ety. subst ty'.
    exact (in_map fst _ _ H).
  - intros k s H. apply M in H. rewrite <- K. apply S, H.
  - intros k. split.
    + intros H. apply in_map_iff in H. destruct H as ([k' s] & Ek & H).
      cbn [fst] in Ek. subst k'. apply M in H.
      destruct (S _ _ H) as [_ (t & Ht & Hk)]. exists t.
      split; [exact Ht|]. unfold server_expense_in.
      injection Hk as -> ->. rewrite !String.eqb_refl. reflexivity.
    + intros (t & Ht & Et). unfold server_expense_in in Et.
      apply andb_prop in Et. destruct Et as [E1 E2].
      apply String.eqb_eq in E1, E2.
      pose proof (C t Ht) as Hin. cbv beta in Hin. rewrite E1, E2 in Hin.
      apply in_map_iff in Hin. destruct Hin as ([k' s] & Ek & Hin).
      cbn [fst] in Ek. subst k'.
      apply in_map_iff. exists (k, s). split; [reflexivity|].
      apply M. exact Hin.
Qed.

End ServerFacts.

(** ** What a write does to the balances *)
Section Bookkeeping.
Import FinanceApp.

Lemma account_balance_running st acc :
  account_balance st acc = Py.round2 (running_balance st acc).
Proof. reflexivity. Qed.

Lemma running_balance_snoc accs txs rates t acc :
  running_balance (mkstore accs (txs ++ [t]) rates) acc =
  if (tx_account_id t =? acc_id acc)%Z
  then balance_step (mkstore accs txs rates) (acc_currency acc)
         (running_balance (mkstore accs txs rates) acc) t
  else running_balance (mkstore accs txs rates) acc.
Proof.
  unfold running_balance, own_rows. cbn [transactions].
  rewrite filter_app. cbn [filter].
  destruct (tx_account_id t =? acc_id acc)%Z.
  - rewrite fold_left_app. reflexivity.
  - rewrite app_nil_r. reflexivity.
Qed.

(** X23. A transaction that [api_add_transaction] accepts is appended
    to the table and changes nothing else.  The balance of every account
    other than the one it is booked on stays what it was; the running
    balance of its own account moves by the transaction's converted
    amount, down for an expense and up for anything else.  A new account
    leaves the balances of the others alone as well, and starts at 0
    unless a stored transaction already carries its id. *)
Theorem writes_and_balances :
  (forall st data id st',
     api_add_transaction st data = (Ok id, st') ->
     exists t,
       transactions st' = (transactions st ++ [t])%list /\ tx_id t = id
       /\ accounts st' = accounts st
       /\ exchange_rates st' = exchange_rates st
       /\ (forall acc,
             acc_id acc <> tx_account_id t ->
             account_balance st' acc = account_balance st acc)
       /\ (forall acc,
             acc_id acc = tx_account_id t ->
             running_balance st' acc
             = (if is_expense t
                then running_balance st acc - converted st acc t
                else running_balance st acc + converted st acc t)%Q
             /\ account_balance st' acc
                = Py.round2 (running_balance st' acc)))
  /\ (forall st data a st',
        api_add_account st data = (Ok a, st') ->
        (forall acc, account_balance st' acc = account_balance st acc)
        /\ ((forall t, In t (transactions st) ->
                       tx_account_id t <> acc_id a) ->
            account_balance st' a == 0)).
Proof.
  split.
  - intros st data id st' H. unfold api_add_transaction in H.
    destruct (checked_transaction st data) as [t| |]; try discriminate H.
    unfold insert_transaction in H. injection H as <- <-.
    eexists. cbn [transactions accounts exchange_rates tx_id].
    split; [reflexivity|]. split; [reflexivity|].
    split; [reflexivity|]. split; [reflexivity|].
    destruct st as [accs txs rates]. cbn [transactions accounts
                                            exchange_rates tx_account_id].
    split.
    + intros acc Hne. rewrite !account_balance_running.
      rewrite running_balance_snoc. cbn [tx_account_id].
      replace (tx_account_id t =? acc_id acc)%Z with false; [reflexivity|].
      symmetry. apply Z.eqb_neq. congruence.
    + intros acc He. split; [|reflexivity].
      rewrite running_balance_snoc. cbn [tx_account_id].
      rewrite <- He, Z.eqb_refl. reflexivity.
  - intros st data a st' H. rewrite account_checks in H.
    destruct (str_or (af_name data) "") as [n| |]; try discriminate H.
    destruct (str_or (af_currency data) "CNY") as [c| |];
      try discriminate H.
    destruct (String.eqb (Py.strip n) ""); [discriminate H|].
    destruct (negb (Py.str_in (Py.upper c) CURRENCIES)); [discriminate H|].
    cbv zeta in H. injection H as <- <-. split; [reflexivity|].
    intros Hn. unfold account_balance. cbn [transactions acc_id].
    rewrite (filter_none _ (transactions st)); [reflexivity|].
    intros t Ht. apply Z.eqb_neq. apply (Hn t Ht).
Qed.

(** The expense of 50 CNY on the seeded account is row 1. *)
Lemma writes_and_balances_witness :
  api_add_transaction seeded_store plain_form
  = (Ok 1%Z, snd (api_add_transaction seeded_store plain_form))
  /\ exists t,
       transactions (snd (api_add_transaction seeded_store plain_form))
       = (transactions seeded_store ++ [t])%list
       /\ tx_id t = 1%Z.
Proof.
  assert (E : api_add_transaction seeded_store plain_form
              = (Ok 1%Z, snd (api_add_transaction seeded_store plain_form)))
    by reflexivity.
  split; [exact E|].
  destruct (proj1 writes_and_balances _ _ _ _ E) as (t & Ht & Hid & _).
  exists t. split; assumption.
Defined.




End Bookkeeping.
